(** * Interview copilot: a shallow embedding of [main.py] and [test.py]

    The two files are variants of one Kivy application: three button
    handlers (Start, Stop, Generate) around a recording buffer, a wave file,
    a speech-recognition call and a chat-completion call.  The handlers are
    embedded as computations in a reader/state/exception monad; the audio
    library, the file system, the recognizer and the HTTP server are the
    environment. *)

From Stdlib Require Import ZArith List String Ascii Bool Lia.
From Stdlib Require Import SpecFloat.
Import ListNotations.

Local Open Scope string_scope.
Local Open Scope Z_scope.

(** ** Python strings

    A [str] is kept as its UTF-8 bytes.  [lower] folds the ASCII capitals.
    Python folds other capitals as well; for the ASCII word the program
    looks for, that makes no difference to the membership test. *)

Definition nl : string := String "010"%char EmptyString.

Definition ascii_lower (c : ascii) : ascii :=
  let n := nat_of_ascii c in
  if (Nat.leb 65 n && Nat.leb n 90)%bool then ascii_of_nat (n + 32) else c.

Fixpoint lower (s : string) : string :=
  match s with
  | EmptyString => EmptyString
  | String c t => String (ascii_lower c) (lower t)
  end.

(** [starts_with p s] and [str_in p s]: the [in] operator on two [str]. *)
Fixpoint starts_with (p s : string) : bool :=
  match p, s with
  | EmptyString, _ => true
  | String _ _, EmptyString => false
  | String a p', String b s' => (Ascii.eqb a b && starts_with p' s')%bool
  end.

Fixpoint str_in (p s : string) : bool :=
  (starts_with p s ||
   match s with
   | EmptyString => false
   | String _ t => str_in p t
   end)%bool.

(** ** Exceptions and results *)

Inductive exn_class : Type :=
| PyException | PortAudioError | UnknownValueError | RequestError
| HTTPError | ConnectionError | JSONDecodeError | KeyError | TypeError
| ValueError | OSError | FileNotFoundError.

Definition exn_class_eqb (a b : exn_class) : bool :=
  match a, b with
  | PyException, PyException | PortAudioError, PortAudioError
  | UnknownValueError, UnknownValueError | RequestError, RequestError
  | HTTPError, HTTPError | ConnectionError, ConnectionError
  | JSONDecodeError, JSONDecodeError | KeyError, KeyError
  | TypeError, TypeError | ValueError, ValueError | OSError, OSError
  | FileNotFoundError, FileNotFoundError => true
  | _, _ => false
  end.

(** Every class above derives from [Exception]; [str(e)] is [exn_msg e]. *)
Record exn : Type := mkExn { exn_cls : exn_class; exn_msg : string }.

Inductive result (A : Type) : Type :=
| Ok (a : A)
| Raise (e : exn).
Arguments Ok {A} a.
Arguments Raise {A} e.

Definition raised {A} (r : result A) : bool :=
  match r with Ok _ => false | Raise _ => true end.

(** ** IEEE binary32 ([dtype="float32"]) and [int16] *)

Definition float32 : Type := spec_float.

Definition prec32 : Z := 24.
Definition emax32 : Z := 128.

Definition f32_add : float32 -> float32 -> float32 := SFadd prec32 emax32.
Definition f32_mul : float32 -> float32 -> float32 := SFmul prec32 emax32.
Definition f32_div : float32 -> float32 -> float32 := SFdiv prec32 emax32.
Definition f32_abs : float32 -> float32 := SFabs.
Definition f32_ltb : float32 -> float32 -> bool := SFltb.
Definition f32_leb : float32 -> float32 -> bool := SFleb.
Definition f32_of_Z (z : Z) : float32 := binary_normalize prec32 emax32 z 0 false.

Definition f32_is_nan (x : float32) : bool :=
  match x with S754_nan => true | _ => false end.

Definition f32_is_zero (x : float32) : bool :=
  match x with S754_zero _ => true | _ => false end.

(** The integer part, rounding toward zero; no value for NaN and infinities. *)
Definition f32_trunc (x : float32) : option Z :=
  match x with
  | S754_zero _ => Some 0
  | S754_finite s m e =>
      let a := Z.shiftl (Zpos m) e in Some (if s then - a else a)
  | S754_infinity _ | S754_nan => None
  end.

Record int16 : Type := I16 { int16_val : Z }.

Definition wrap16 (z : Z) : Z := (z + 32768) mod 65536 - 32768.

(** [np.int16(x)] on a float: the C conversion.  It truncates; outside the
    target range C leaves the result open, and the value below is the one
    an x86-64 build produces (conversion to 32 bits, low half kept). *)
Definition int16_of_f32 (x : float32) : int16 :=
  match f32_trunc x with
  | Some z =>
      if ((- 2147483648 <=? z) && (z <=? 2147483647))%bool
      then I16 (wrap16 z) else I16 0
  | None => I16 0
  end.

(** ** numpy arrays

    One- and two-dimensional arrays; a two-dimensional array keeps its
    number of columns, so that [shape] is defined without rows. *)

Inductive ndarray (A : Type) : Type :=
| Arr1 (v : list A)
| Arr2 (cols : nat) (rows : list (list A)).
Arguments Arr1 {A} v.
Arguments Arr2 {A} cols rows.

Definition shape {A} (a : ndarray A) : list nat :=
  match a with
  | Arr1 v => [List.length v]
  | Arr2 cols rows => [List.length rows; cols]
  end.

Definition ndim {A} (a : ndarray A) : nat := List.length (shape a).

Definition ravel {A} (a : ndarray A) : list A :=
  match a with
  | Arr1 v => v
  | Arr2 _ rows => List.concat rows
  end.

Definition np_map {A B} (f : A -> B) (a : ndarray A) : ndarray B :=
  match a with
  | Arr1 v => Arr1 (map f v)
  | Arr2 cols rows => Arr2 cols (map (map f) rows)
  end.

Definition np_abs (a : ndarray float32) : ndarray float32 := np_map f32_abs a.

(** [np.maximum] on two scalars: the first operand unless the second is
    larger; a NaN on either side comes out. *)
Definition npy_maximum (a b : float32) : float32 :=
  if (f32_leb b a || f32_is_nan a)%bool then a else b.

(** [np.max(a)]: reduction over all elements, [ValueError] when empty. *)
Definition np_max (a : ndarray float32) : result float32 :=
  match ravel a with
  | [] =>
      Raise (mkExn ValueError
        "zero-size array to reduction operation maximum which has no identity")
  | x :: xs => Ok (fold_left npy_maximum xs x)
  end.

(** The sum numpy takes of a contiguous run: fewer than 8 elements one
    after the other; up to 128 with 8 running sums that take every eighth
    element, combined in pairs, and the last [n mod 8] elements added at
    the end; longer runs split near the middle, at a multiple of 8. *)
Fixpoint zip_add (r b : list float32) : list float32 :=
  match r, b with
  | x :: r', y :: b' => f32_add x y :: zip_add r' b'
  | _, _ => r
  end.

Fixpoint accumulate8 (blocks : nat) (r rest : list float32)
    : list float32 * list float32 :=
  match blocks with
  | O => (r, rest)
  | S k => accumulate8 k (zip_add r (firstn 8 rest)) (skipn 8 rest)
  end.

Definition block_sum (a : list float32) : float32 :=
  let (r, tail) :=
    accumulate8 (List.length a / 8 - 1) (firstn 8 a) (skipn 8 a) in
  match r with
  | [r0; r1; r2; r3; r4; r5; r6; r7] =>
      fold_left f32_add tail
        (f32_add (f32_add (f32_add r0 r1) (f32_add r2 r3))
                 (f32_add (f32_add r4 r5) (f32_add r6 r7)))
  | _ => fold_left f32_add a (S754_zero true)
  end.

Fixpoint pairwise_sum (fuel : nat) (a : list float32) : float32 :=
  let n := List.length a in
  if Nat.ltb n 8 then fold_left f32_add a (S754_zero true)
  else if Nat.leb n 128 then block_sum a
  else
    match fuel with
    | O => block_sum a
    | S k =>
        let n2 := (n / 2 - (n / 2) mod 8)%nat in
        f32_add (pairwise_sum k (firstn n2 a)) (pairwise_sum k (skipn n2 a))
    end.

(** [np.add.reduce] over one frame: the sum of the frame added to the
    initial value [+0.0]. *)
Definition row_sum (r : list float32) : float32 :=
  f32_add (S754_zero false) (pairwise_sum (List.length r) r).

(** [np.mean(a, axis=1)] divides each row sum by the column count. *)
Definition mean_count (cols : nat) : float32 := f32_of_Z (Z.of_nat cols).

Definition np_mean_axis1 (a : ndarray float32) : result (ndarray float32) :=
  match a with
  | Arr1 _ =>
      Raise (mkExn ValueError
        "axis 1 is out of bounds for array of dimension 1")
  | Arr2 cols rows =>
      Ok (Arr1 (map (fun r => f32_div (row_sum r) (mean_count cols)) rows))
  end.

Definition np_divide (a : ndarray float32) (d : float32) : ndarray float32 :=
  np_map (fun x => f32_div x d) a.

Definition np_multiply (a : ndarray float32) (k : float32) : ndarray float32 :=
  np_map (fun x => f32_mul x k) a.

Definition np_int16 (a : ndarray float32) : ndarray int16 :=
  np_map int16_of_f32 a.

(** ** dtypes and wave files ([scipy.io.wavfile.write]) *)

Inductive sample_format : Type := PCM | IEEE_FLOAT.

Inductive sample : Type :=
| SInt (z : Z)
| SFloat (x : float32).

Class Dtype (A : Type) : Type := {
  itemsize : nat;
  format_tag : sample_format;
  to_sample : A -> sample
}.

#[export] Instance float32_dtype : Dtype float32 :=
  {| itemsize := 4; format_tag := IEEE_FLOAT; to_sample := SFloat |}.

#[export] Instance int16_dtype : Dtype int16 :=
  {| itemsize := 2; format_tag := PCM; to_sample := fun i => SInt (int16_val i) |}.

Record wav : Type := mkWav {
  wav_rate : Z;
  wav_channels : nat;
  wav_format : sample_format;
  wav_bits : nat;
  wav_frames : list (list sample)
}.

(** The header fields [write] derives from its arguments: one channel for
    a one-dimensional array and [shape[1]] otherwise, and the bit depth and
    format tag of the dtype. *)
Definition wav_of_array {A} `{Dtype A} (rate : Z) (data : ndarray A) : wav :=
  {| wav_rate := rate;
     wav_channels := match data with Arr1 _ => 1%nat | Arr2 cols _ => cols end;
     wav_format := format_tag;
     wav_bits := (itemsize * 8)%nat;
     wav_frames := match data with
                   | Arr1 v => map (fun x => [to_sample x]) v
                   | Arr2 _ rows => map (map to_sample) rows
                   end |}.

(** ** JSON values, as Python objects

    What [response.json()] returns: [None], [bool], [int], [float] (a
    binary64 value), [str], [list] and [dict]. *)

#[warnings="-register-all"] Inductive json : Type :=
| JNull
| JBool (b : bool)
| JInt (z : Z)
| JFloat (x : spec_float)
| JStr (s : string)
| JArr (items : list json)
| JObj (fields : list (string * json)).

Fixpoint assoc (k : string) (fields : list (string * json)) : option json :=
  match fields with
  | [] => None
  | (k', v) :: rest => if String.eqb k k' then Some v else assoc k rest
  end.

Definition keys (j : json) : list string :=
  match j with
  | JObj fields => map fst fields
  | _ => []
  end.

(** [obj[key]] with a [str] key. *)
Definition py_getitem (obj : json) (key : string) : result json :=
  match obj with
  | JObj fields =>
      match assoc key fields with
      | Some v => Ok v
      | None => Raise (mkExn KeyError ("'" ++ key ++ "'"))
      end
  | JArr _ => Raise (mkExn TypeError "list indices must be integers or slices, not str")
  | JStr _ => Raise (mkExn TypeError "string indices must be integers, not 'str'")
  | JNull => Raise (mkExn TypeError "'NoneType' object is not subscriptable")
  | JBool _ => Raise (mkExn TypeError "'bool' object is not subscriptable")
  | JInt _ => Raise (mkExn TypeError "'int' object is not subscriptable")
  | JFloat _ => Raise (mkExn TypeError "'float' object is not subscriptable")
  end.

(** A [requests.Response]: what [raise_for_status()] and [json()] do. *)
Record response : Type := mkResponse {
  raise_for_status : option exn;
  response_json : result json
}.

(** ** Files

    [write] opens the file for writing, which empties it, and then stores
    header and samples.  A failure after the opening leaves a file that was
    cut short.

    [sr.AudioFile] reads a wave file through the [wave] module, which takes
    PCM samples only; what it cannot read as a wave file it tries as AIFF
    and as FLAC, and then refuses: with a [ValueError], or with the
    [OSError] of a FLAC converter that is not installed. *)

Inductive file : Type :=
| WaveFile (f : wav)
| CutShort.

Inductive refusal : Type :=
| NotDecodable (msg : string)
| ConverterMissing (msg : string).

Definition refusal_exn (r : refusal) : exn :=
  match r with
  | NotDecodable msg => mkExn ValueError msg
  | ConverterMissing msg => mkExn OSError msg
  end.

(** ** The environment: what the libraries answer *)

Record device : Type := mkDevice {
  name : string;
  max_input_channels : Z
}.

Record env : Type := mkEnv {
  (** [sd.query_devices()] *)
  query_devices : result (list device);
  (** [sd.rec] refusing a channel count and device *)
  rec_error : nat -> option nat -> option exn;
  (** the sample found in the buffer at a frame and a channel *)
  captured : nat -> nat -> float32;
  (** [write] failing on the file system *)
  write_error : option exn;
  (** the failure came after [write] had opened the file for writing *)
  write_cuts_short : bool;
  (** the frames [sr.AudioFile] and [record] find in a file that was cut
      short, when its header got through *)
  read_cut_short : option wav;
  (** how [sr.AudioFile] refuses a file it cannot read *)
  read_refusal : refusal;
  (** [recognizer.recognize_google(audio)] *)
  recognize_google : wav -> result string;
  (** [requests.post(url, json=payload)] *)
  requests_post : string -> json -> result response;
  (** [str(v)] of a value that is not a [str]: Python's [repr] of numbers
      and containers, taken as given *)
  str_other : json -> string
}.

(** An f-string field: a [str] as it is, any other value through [str]. *)
Definition py_str (w : env) (v : json) : string :=
  match v with
  | JStr s => s
  | _ => str_other w v
  end.

(** ** The state: the application object and the world it changes *)

Record state : Type := mkState {
  response_label : string;              (* self.response_label.text *)
  start_btn : bool;                     (* self.start_btn.disabled *)
  stop_btn : bool;                      (* self.stop_btn.disabled *)
  gen_btn : bool;                       (* self.gen_btn.disabled *)
  monitor_device : option nat;          (* self.monitor_device *)
  recording : option (ndarray float32); (* self.recording *)
  stream_active : bool;                 (* an audio stream is running *)
  files : string -> option file;        (* files on disk *)
  stdout : list string;                 (* printed lines *)
  requests_sent : list (string * json); (* bodies posted, latest first *)
  divisors : list float32;              (* divisors used, latest first *)
  threads : nat                         (* pipeline threads started *)
}.

Definition set_response_label (v : string) (s : state) : state :=
  mkState v (start_btn s) (stop_btn s) (gen_btn s) (monitor_device s)
    (recording s) (stream_active s) (files s) (stdout s) (requests_sent s)
    (divisors s) (threads s).
Definition set_start_btn (v : bool) (s : state) : state :=
  mkState (response_label s) v (stop_btn s) (gen_btn s) (monitor_device s)
    (recording s) (stream_active s) (files s) (stdout s) (requests_sent s)
    (divisors s) (threads s).
Definition set_stop_btn (v : bool) (s : state) : state :=
  mkState (response_label s) (start_btn s) v (gen_btn s) (monitor_device s)
    (recording s) (stream_active s) (files s) (stdout s) (requests_sent s)
    (divisors s) (threads s).
Definition set_gen_btn (v : bool) (s : state) : state :=
  mkState (response_label s) (start_btn s) (stop_btn s) v (monitor_device s)
    (recording s) (stream_active s) (files s) (stdout s) (requests_sent s)
    (divisors s) (threads s).
Definition set_monitor_device (v : option nat) (s : state) : state :=
  mkState (response_label s) (start_btn s) (stop_btn s) (gen_btn s) v
    (recording s) (stream_active s) (files s) (stdout s) (requests_sent s)
    (divisors s) (threads s).
Definition set_recording (v : option (ndarray float32)) (s : state) : state :=
  mkState (response_label s) (start_btn s) (stop_btn s) (gen_btn s)
    (monitor_device s) v (stream_active s) (files s) (stdout s)
    (requests_sent s) (divisors s) (threads s).
Definition set_stream_active (v : bool) (s : state) : state :=
  mkState (response_label s) (start_btn s) (stop_btn s) (gen_btn s)
    (monitor_device s) (recording s) v (files s) (stdout s)
    (requests_sent s) (divisors s) (threads s).
Definition set_files (v : string -> option file) (s : state) : state :=
  mkState (response_label s) (start_btn s) (stop_btn s) (gen_btn s)
    (monitor_device s) (recording s) (stream_active s) v (stdout s)
    (requests_sent s) (divisors s) (threads s).
Definition set_stdout (v : list string) (s : state) : state :=
  mkState (response_label s) (start_btn s) (stop_btn s) (gen_btn s)
    (monitor_device s) (recording s) (stream_active s) (files s) v
    (requests_sent s) (divisors s) (threads s).
Definition set_requests_sent (v : list (string * json)) (s : state) : state :=
  mkState (response_label s) (start_btn s) (stop_btn s) (gen_btn s)
    (monitor_device s) (recording s) (stream_active s) (files s) (stdout s)
    v (divisors s) (threads s).
Definition set_divisors (v : list float32) (s : state) : state :=
  mkState (response_label s) (start_btn s) (stop_btn s) (gen_btn s)
    (monitor_device s) (recording s) (stream_active s) (files s) (stdout s)
    (requests_sent s) v (threads s).
Definition set_threads (v : nat) (s : state) : state :=
  mkState (response_label s) (start_btn s) (stop_btn s) (gen_btn s)
    (monitor_device s) (recording s) (stream_active s) (files s) (stdout s)
    (requests_sent s) (divisors s) v.

(** ** The monad of the handlers *)

Definition M (A : Type) : Type := env -> state -> result A * state.

Definition ret {A} (a : A) : M A := fun _ s => (Ok a, s).

Definition bind {A B} (m : M A) (k : A -> M B) : M B :=
  fun w s =>
    match m w s with
    | (Ok a, s') => k a w s'
    | (Raise e, s') => (Raise e, s')
    end.

Definition raise {A} (e : exn) : M A := fun _ s => (Raise e, s).

Definition lift {A} (r : result A) : M A := fun _ s => (r, s).

Definition get : M state := fun _ s => (Ok s, s).

Definition ask : M env := fun w s => (Ok w, s).

Definition modify (f : state -> state) : M unit := fun _ s => (Ok tt, f s).

Declare Scope py_scope.
Delimit Scope py_scope with py.
Notation "x <- m ;; k" := (bind m (fun x => k))
  (at level 61, m at next level, right associativity) : py_scope.
Notation "m ;; k" := (bind m (fun _ => k))
  (at level 61, right associativity) : py_scope.
Local Open Scope py_scope.

(** The class hierarchy, as far as [except] clauses look at it. *)
Definition subclass_of (c base : exn_class) : bool :=
  match base, c with
  | PyException, _ => true
  | OSError, (FileNotFoundError | HTTPError | ConnectionError) => true
  | ValueError, JSONDecodeError => true
  | _, _ => exn_class_eqb c base
  end.

Fixpoint select_clause {A} (clauses : list (exn_class * (exn -> M A)))
    (e : exn) : option (exn -> M A) :=
  match clauses with
  | [] => None
  | (c, h) :: rest =>
      if subclass_of (exn_cls e) c then Some h else select_clause rest e
  end.

(** [try: body / except C1 as e: h1 / except C2 as e: h2 ...]: the first
    clause whose class the exception is an instance of; none, and the
    exception goes on. *)
Definition try_except {A} (body : M A)
    (clauses : list (exn_class * (exn -> M A))) : M A :=
  fun w s =>
    match body w s with
    | (Ok a, s') => (Ok a, s')
    | (Raise e, s') =>
        match select_clause clauses e with
        | Some h => h e w s'
        | None => (Raise e, s')
        end
    end.

(** [try: body / finally: fin]. *)
Definition try_finally {A} (body : M A) (fin : M unit) : M A :=
  fun w s =>
    match body w s with
    | (r, s') =>
        match fin w s' with
        | (Ok _, s'') => (r, s'')
        | (Raise e, s'') => (Raise e, s'')
        end
    end.

(** ** Library calls in the monad *)

Definition print (line : string) : M unit :=
  modify (fun s => set_stdout (line :: stdout s) s).

Definition sd_query_devices : M (list device) :=
  w <- ask ;; lift (query_devices w).

(** The buffer [sd.rec] hands back: [frames] rows of [channels] samples. *)
Definition rec_buffer (w : env) (frames : Z) (channels : nat) : ndarray float32 :=
  Arr2 channels
    (map (fun i => map (captured w i) (seq 0 channels)) (seq 0 (Z.to_nat frames))).

Definition sd_rec (frames samplerate : Z) (channels : nat)
    (dev : option nat) : M (ndarray float32) :=
  w <- ask ;;
  match rec_error w channels dev with
  | Some e => raise e
  | None =>
      modify (set_stream_active true) ;;
      ret (rec_buffer w frames channels)
  end.

Definition sd_stop : M unit := modify (set_stream_active false).

Definition log_divisor (a : ndarray float32) (d : float32) : M unit :=
  match ravel a with
  | [] => ret tt
  | _ :: _ => modify (fun s => set_divisors (d :: divisors s) s)
  end.

(** [a / d] with a scalar [d]; the divisor is recorded when an element is
    divided by it. *)
Definition true_divide (a : ndarray float32) (d : float32) : M (ndarray float32) :=
  log_divisor a d ;; ret (np_divide a d).

Definition mean_axis1 (a : ndarray float32) : M (ndarray float32) :=
  m <- lift (np_mean_axis1 a) ;;
  match a with
  | Arr2 cols _ => log_divisor m (mean_count cols) ;; ret m
  | Arr1 _ => ret m
  end.

(** [write(filename, rate, data)] of [scipy.io.wavfile]: afterwards the
    file holds the header and the samples of [data].  When it fails before
    the file is opened, the disk is as it was; when it fails later, what the
    file held is gone and a file cut short is left. *)
Definition write {A} `{Dtype A} (filename : string) (rate : Z)
    (data : ndarray A) : M unit :=
  w <- ask ;;
  match write_error w with
  | Some e =>
      (if write_cuts_short w
       then modify (fun s =>
              set_files (fun f => if String.eqb f filename
                                  then Some CutShort
                                  else files s f) s)
       else ret tt) ;;
      raise e
  | None =>
      modify (fun s =>
        set_files (fun f => if String.eqb f filename
                            then Some (WaveFile (wav_of_array rate data))
                            else files s f) s)
  end.

(** [with sr.AudioFile(filename) as source: audio = recognizer.record(source)] *)
Definition record_audio_file (filename : string) : M wav :=
  s <- get ;;
  match files s filename with
  | Some (WaveFile audio) =>
      match wav_format audio with
      | PCM => ret audio
      | IEEE_FLOAT => w <- ask ;; raise (refusal_exn (read_refusal w))
      end
  | Some CutShort =>
      w <- ask ;;
      match read_cut_short w with
      | Some audio => ret audio
      | None => raise (refusal_exn (read_refusal w))
      end
  | None =>
      raise (mkExn FileNotFoundError
        ("[Errno 2] No such file or directory: '" ++ filename ++ "'"))
  end.

Definition sr_recognize_google (audio : wav) : M string :=
  w <- ask ;; lift (recognize_google w audio).

Definition post (url : string) (payload : json) : M response :=
  modify (fun s => set_requests_sent ((url, payload) :: requests_sent s) s) ;;
  w <- ask ;;
  lift (requests_post w url payload).

Definition response_raise_for_status (r : response) : M unit :=
  match raise_for_status r with
  | Some e => raise e
  | None => ret tt
  end.

Definition start_thread : M unit :=
  modify (fun s => set_threads (S (threads s)) s).

(** ** main.py *)

Module main_py.

Definition SAMPLE_RATE : Z := 44100.
Definition AUDIO_FILE : string := "answer.wav".
Definition OLLAMA_URL : string := "http://localhost:11434/api/chat".

(** The state [build] leaves behind. *)
Definition build (fs : string -> option file) : state :=
  mkState "[b]Press Start to record Speaker Audio[/b]" false true true
    None None false fs [] [] [] 0.

(** The [for i, device in enumerate(devices)] loop of [get_monitor_device]. *)
Fixpoint monitor_loop (i : nat) (devices : list device) : M nat :=
  match devices with
  | [] =>
      raise (mkExn PyException
        "No PulseAudio monitor device found. Install pavucontrol.")
  | device :: rest =>
      if (str_in "monitor" (lower (name device))
          && (0 <? max_input_channels device))%bool
      then print ("Using Speaker Monitor: " ++ name device) ;; ret i
      else monitor_loop (S i) rest
  end.

Definition get_monitor_device : M nat :=
  devices <- sd_query_devices ;;
  monitor_loop 0 devices.

Definition start_recording_try : M unit :=
  modify (set_response_label "[b]🎙 Recording Speaker Audio...[/b]") ;;
  modify (set_start_btn true) ;;
  modify (set_stop_btn false) ;;
  modify (set_gen_btn true) ;;
  i <- get_monitor_device ;;
  modify (set_monitor_device (Some i)) ;;
  a <- sd_rec (60 * SAMPLE_RATE) SAMPLE_RATE 2 (Some i) ;;
  modify (set_recording (Some a)).

Definition start_recording_except (e : exn) : M unit :=
  modify (set_response_label ("[b]❌ Error:[/b]" ++ nl ++ exn_msg e)) ;;
  modify (set_start_btn false) ;;
  modify (set_stop_btn true).

Definition start_recording : M unit :=
  try_except start_recording_try [(PyException, start_recording_except)].

Definition stop_recording : M unit :=
  sd_stop ;;
  s <- get ;;
  match recording s with
  | None => ret tt
  | Some r =>
      (* Convert stereo to mono *)
      r <- (if Nat.eqb (List.length (shape r)) 2
            then m <- mean_axis1 r ;;
                 modify (set_recording (Some m)) ;;
                 ret m
            else ret r) ;;
      (* Normalize safely *)
      max_val <- lift (np_max (np_abs r)) ;;
      audio_int16 <-
        (if f32_ltb (f32_of_Z 0) max_val
         then q <- true_divide r max_val ;;
              ret (np_int16 (np_multiply q (f32_of_Z 32767)))
         else ret (np_int16 r)) ;;
      write AUDIO_FILE SAMPLE_RATE audio_int16 ;;
      modify (set_response_label
                ("[b]✅ Speaker Recording Saved[/b]" ++ nl ++ "Click Generate.")) ;;
      modify (set_stop_btn true) ;;
      modify (set_gen_btn false) ;;
      modify (set_start_btn false)
  end.

Definition transcribe : M string :=
  audio <- record_audio_file AUDIO_FILE ;;
  try_except (sr_recognize_google audio)
    [(UnknownValueError, fun _ => ret "Could not understand audio.");
     (RequestError, fun _ => ret "Google API error.")].

Definition payload (transcript : string) : json :=
  JObj
    [("model", JStr "phi3:mini");
     ("messages",
      JArr
        [JObj
           [("role", JStr "system");
            ("content",
             JStr "You are an interview copilot. Give concise, point-wise answers in simple English.")];
         JObj
           [("role", JStr "user");
            ("content", JStr transcript)]]);
     ("stream", JBool false);
     ("options", JObj [("num_predict", JInt 150)])].

Definition call_llama (transcript : string) : M json :=
  response <- post OLLAMA_URL (payload transcript) ;;
  response_raise_for_status response ;;
  body <- lift (response_json response) ;;
  message <- lift (py_getitem body "message") ;;
  lift (py_getitem message "content").

Definition ai_pipeline_try : M unit :=
  transcript <- transcribe ;;
  feedback <- call_llama transcript ;;
  w <- ask ;;
  modify (set_response_label
            ("[b]🎤 Interviewer Said:[/b]" ++ nl
             ++ transcript ++ nl ++ nl
             ++ "[b]🤖 Suggested Answer:[/b]" ++ nl
             ++ py_str w feedback)).

Definition ai_pipeline_except (e : exn) : M unit :=
  modify (set_response_label ("[b]❌ Error[/b]" ++ nl ++ exn_msg e)).

Definition ai_pipeline : M unit :=
  try_finally
    (try_except ai_pipeline_try [(PyException, ai_pipeline_except)])
    (modify (set_gen_btn false)).

(** The thread started here runs [ai_pipeline] later. *)
Definition generate_response : M unit :=
  modify (set_response_label "[b]⏳ Processing...[/b]") ;;
  modify (set_gen_btn true) ;;
  start_thread.

End main_py.

(** ** test.py *)

Module test_py.

Definition SAMPLE_RATE : Z := 44100.
Definition AUDIO_FILE : string := "answer.wav".

Definition build (fs : string -> option file) : state :=
  mkState "Press Start to record your answer" false true true
    None None false fs [] [] [] 0.

Definition start_recording : M unit :=
  modify (set_response_label "[b]🎙 Recording...[/b]") ;;
  modify (set_start_btn true) ;;
  modify (set_stop_btn false) ;;
  modify (set_gen_btn true) ;;
  a <- sd_rec (60 * SAMPLE_RATE) SAMPLE_RATE 1 None ;;
  modify (set_recording (Some a)).

Definition stop_recording : M unit :=
  sd_stop ;;
  s <- get ;;
  (* Convert to int16 for compatibility *)
  audio_int16 <-
    match recording s with
    | None =>
        raise (mkExn TypeError "bad operand type for abs(): 'NoneType'")
    | Some r =>
        max_val <- lift (np_max (np_abs r)) ;;
        q <- true_divide r max_val ;;
        ret (np_int16 (np_multiply q (f32_of_Z 32767)))
    end ;;
  write AUDIO_FILE SAMPLE_RATE audio_int16 ;;
  modify (set_response_label ("[b]✅ Recording saved.[/b]" ++ nl ++ "Tap Generate.")) ;;
  modify (set_stop_btn true) ;;
  modify (set_gen_btn false) ;;
  modify (set_start_btn false).

Definition transcribe : M string :=
  audio <- record_audio_file AUDIO_FILE ;;
  try_except (sr_recognize_google audio)
    [(UnknownValueError, fun _ => ret "❌ Could not understand the audio.");
     (RequestError, fun _ => ret "⚠️ Google API error.")].

Definition url : string := "http://localhost:11434/api/chat".

Definition payload (transcript : string) : json :=
  JObj
    [("model", JStr "phi3:mini");
     ("messages",
      JArr
        [JObj
           [("role", JStr "system");
            ("content",
             JStr "You are helpfull assistant, You task is to generate response as per question,
                    Generate reponse in proper structure like below:
                    1. point1.....
                    2. point2.....
                    .
                    .
                    ")];
         JObj
           [("role", JStr "user");
            ("content", JStr transcript)]]);
     ("stream", JBool false);
     ("options", JObj [("num_predict", JInt 150)])].

Definition call_llama (transcript : string) : M json :=
  response <- post url (payload transcript) ;;
  response_raise_for_status response ;;
  body <- lift (response_json response) ;;
  message <- lift (py_getitem body "message") ;;
  lift (py_getitem message "content").

Definition ai_pipeline_try : M unit :=
  transcript <- transcribe ;;
  print ("Model testing " ++ transcript) ;;
  feedback <- call_llama transcript ;;
  w <- ask ;;
  modify (set_response_label
            ("[b] Interviewer Say:[/b]" ++ nl
             ++ transcript ++ nl ++ nl
             ++ "[b]🤖 Generated Answer:[/b]" ++ nl
             ++ py_str w feedback)).

Definition ai_pipeline_except (e : exn) : M unit :=
  modify (set_response_label ("[b]❌ Error[/b]" ++ nl ++ exn_msg e)).

Definition ai_pipeline : M unit :=
  try_finally
    (try_except ai_pipeline_try [(PyException, ai_pipeline_except)])
    (modify (set_gen_btn false)).

Definition generate_response : M unit :=
  modify (set_response_label "[b]⏳ Transcribing & generating feedback...[/b]") ;;
  modify (set_gen_btn true) ;;
  start_thread.

End test_py.

(** * Vocabulary of the statements *)

(** A name contains the word case-insensitively: some stretch of it
    lower-cases to the word. *)
Definition contains_ci (word s : string) : Prop :=
  exists pre w post, s = pre ++ w ++ post /\ lower w = word.

(** An input device whose name contains "monitor". *)
Definition monitor_input (d : device) : Prop :=
  contains_ci "monitor" (name d) /\ 0 < max_input_channels d.

(** [i] is the position of the first device of the list with the property. *)
Definition first_index (P : device -> Prop) (devices : list device) (i : nat) : Prop :=
  (exists d, nth_error devices i = Some d /\ P d) /\
  (forall j d, (j < i)%nat -> nth_error devices j = Some d -> ~ P d).

(** The test of the loop in [get_monitor_device]. *)
Definition monitor_test (d : device) : bool :=
  (str_in "monitor" (lower (name d)) && (0 <? max_input_channels d))%bool.

(** Example devices: a microphone, an output-only monitor, a loopback. *)
Definition example_devices : list device :=
  [mkDevice "HDA Intel PCH: ALC3246 Analog (hw:0,0)" 2;
   mkDevice "Monitor of Dummy Output" 0;
   mkDevice "Built-in Audio MONITOR" 2;
   mkDevice "monitor of Built-in Audio" 2].

(** Example worlds.  [silence] is a buffer of zeros; the wave file of the
    examples holds three frames. *)
Definition silence : nat -> nat -> float32 := fun _ _ => S754_zero false.

Definition example_wav : wav :=
  wav_of_array 44100 (Arr1 [I16 0; I16 32767; I16 (-16384)]).

Definition example_files : string -> option file :=
  fun f => if String.eqb f "answer.wav" then Some (WaveFile example_wav) else None.

Definition example_answer : json :=
  JObj [("model", JStr "phi3:mini");
        ("message", JObj [("role", JStr "assistant");
                          ("content", JStr "1. Stay calm.")]);
        ("done", JBool true)].

(** Devices present, recording and writing succeed, speech is recognised,
    the model answers. *)
Definition example_env : env :=
  {| query_devices := Ok example_devices;
     rec_error := fun _ _ => None;
     captured := silence;
     write_error := None;
     write_cuts_short := false;
     read_cut_short := None;
     read_refusal :=
       NotDecodable
         "Audio file could not be read as PCM WAV, AIFF/AIFF-C, or Native FLAC; check if file is corrupted or in another format";
     recognize_google := fun _ => Ok "tell me about yourself";
     requests_post := fun _ _ => Ok (mkResponse None (Ok example_answer));
     str_other := fun _ => "None" |}.

Definition with_recognizer (r : wav -> result string) (w : env) : env :=
  mkEnv (query_devices w) (rec_error w) (captured w) (write_error w)
    (write_cuts_short w) (read_cut_short w) (read_refusal w) r (requests_post w) (str_other w).

Definition with_write_error (e : exn) (cuts_short : bool) (w : env) : env :=
  mkEnv (query_devices w) (rec_error w) (captured w) (Some e)
    cuts_short (read_cut_short w) (read_refusal w) (recognize_google w) (requests_post w)
    (str_other w).

Definition with_devices (d : result (list device)) (w : env) : env :=
  mkEnv d (rec_error w) (captured w) (write_error w)
    (write_cuts_short w) (read_cut_short w) (read_refusal w) (recognize_google w)
    (requests_post w) (str_other w).

Definition with_rec_error (r : nat -> option nat -> option exn) (w : env) : env :=
  mkEnv (query_devices w) r (captured w) (write_error w)
    (write_cuts_short w) (read_cut_short w) (read_refusal w) (recognize_google w)
    (requests_post w) (str_other w).

Definition with_server (p : string -> json -> result response) (w : env) : env :=
  mkEnv (query_devices w) (rec_error w) (captured w) (write_error w)
    (write_cuts_short w) (read_cut_short w) (read_refusal w) (recognize_google w) p
    (str_other w).

(** The same world with unintelligible audio. *)
Definition env_unintelligible : env :=
  with_recognizer (fun _ => Raise (mkExn UnknownValueError "")) example_env.

(** The same world with the recognition service out of reach. *)
Definition env_unreachable : env :=
  with_recognizer
    (fun _ => Raise (mkExn RequestError
                       "recognition connection failed: [Errno 111] Connection refused"))
    example_env.

(** The same world with a disk that fills up while the file is written. *)
Definition env_disk_full : env :=
  with_write_error (mkExn OSError "[Errno 28] No space left on device") true
    example_env.

(** A world without any monitor device and without a model server. *)
Definition env_bare : env :=
  with_devices (Ok [mkDevice "HDA Intel PCH: ALC3246 Analog (hw:0,0)" 2])
    (with_server (fun _ _ => Raise (mkExn ConnectionError "Connection refused"))
       example_env).

(** What [transcribe] does, for given sentinel strings.  It leaves the
    state alone.  With a PCM wave file on disk its result follows the
    recogniser: the text, the first sentinel under [UnknownValueError], the
    second under [RequestError], any other exception passed on.  Whatever
    is on disk, a string it returns is a sentinel or a recognised text, and
    an exception it raises is neither of the two it handles. *)
Definition transcribe_spec (AUDIO_FILE sentinel_unknown sentinel_request : string)
    (transcribe : M string) (w : env) (s : state) : Prop :=
  snd (transcribe w s) = s /\
  (forall audio,
     files s AUDIO_FILE = Some (WaveFile audio) -> wav_format audio = PCM ->
     match recognize_google w audio with
     | Ok text => fst (transcribe w s) = Ok text
     | Raise e =>
         match exn_cls e with
         | UnknownValueError => fst (transcribe w s) = Ok sentinel_unknown
         | RequestError => fst (transcribe w s) = Ok sentinel_request
         | _ => fst (transcribe w s) = Raise e
         end
     end) /\
  (forall text, fst (transcribe w s) = Ok text ->
     text = sentinel_unknown \/ text = sentinel_request \/
     exists audio, recognize_google w audio = Ok text) /\
  (forall e, fst (transcribe w s) = Raise e ->
     exn_cls e <> UnknownValueError /\ exn_cls e <> RequestError).

(** The [try] statement of [transcribe] around the recogniser. *)
Definition recognize_or_sentinel (sentinel_unknown sentinel_request : string)
    (audio : wav) : M string :=
  try_except (sr_recognize_google audio)
    [(UnknownValueError, fun _ => ret sentinel_unknown);
     (RequestError, fun _ => ret sentinel_request)].

(** The request body field by field: the model name, one system and one
    user message, the stream switch turned off, the cap on the generated
    length. *)
Definition chat_body (system transcript : string) : json :=
  JObj
    [("model", JStr "phi3:mini");
     ("messages",
      JArr [JObj [("role", JStr "system"); ("content", JStr system)];
            JObj [("role", JStr "user"); ("content", JStr transcript)]]);
     ("stream", JBool false);
     ("options", JObj [("num_predict", JInt 150)])].

(** What the server's reply to a body leads to: the value under
    ["message"]["content"], or the exception met on the way. *)
Definition chat_result (w : env) (url : string) (body : json) : result json :=
  match requests_post w url body with
  | Raise e => Raise e
  | Ok r =>
      match raise_for_status r with
      | Some e => Raise e
      | None =>
          match response_json r with
          | Raise e => Raise e
          | Ok b =>
              match py_getitem b "message" with
              | Raise e => Raise e
              | Ok m => py_getitem m "content"
              end
          end
      end
  end.

(** [call_llama] posts [chat_body system transcript] to the local endpoint
    and returns the content of the reply. *)
Definition call_llama_spec (call_llama : string -> M json) (system : string) : Prop :=
  forall (w : env) (s : state) (transcript : string),
    requests_sent (snd (call_llama transcript w s)) =
      ("http://localhost:11434/api/chat", chat_body system transcript)
      :: requests_sent s /\
    forall (r : response) (body message content : json),
      requests_post w "http://localhost:11434/api/chat"
        (chat_body system transcript) = Ok r ->
      raise_for_status r = None ->
      response_json r = Ok body ->
      py_getitem body "message" = Ok message ->
      py_getitem message "content" = Ok content ->
      fst (call_llama transcript w s) = Ok content.

Definition system_main : string :=
  "You are an interview copilot. Give concise, point-wise answers in simple English.".

Definition system_test : string :=
  "You are helpfull assistant, You task is to generate response as per question,
                    Generate reponse in proper structure like below:
                    1. point1.....
                    2. point2.....
                    .
                    .
                    ".

(** The body of the latest request. *)
Definition last_body (s : state) : json :=
  match requests_sent s with
  | [] => JNull
  | (_, body) :: _ => body
  end.

(** When the recogniser fails on the PCM wave file with an exception of
    class [cls], the pipeline posts the sentinel as the user message and,
    once the model answers with a string, shows the sentinel and the answer
    under the two headings. *)
Definition forwards_sentinel (AUDIO_FILE : string) (ai_pipeline : M unit)
    (call_llama : string -> M json) (payload : string -> json)
    (cls : exn_class) (sentinel heading_said heading_answer : string) : Prop :=
  forall (w : env) (s : state) (audio : wav) (e : exn),
    files s AUDIO_FILE = Some (WaveFile audio) ->
    wav_format audio = PCM ->
    recognize_google w audio = Raise e ->
    exn_cls e = cls ->
    last_body (snd (ai_pipeline w s)) = payload sentinel /\
    py_getitem
      (match py_getitem (payload sentinel) "messages" with
       | Ok (JArr [_; user]) => user
       | _ => JNull
       end) "content" = Ok (JStr sentinel) /\
    forall answer : string,
      fst (call_llama sentinel w s) = Ok (JStr answer) ->
      fst (ai_pipeline w s) = Ok tt /\
      response_label (snd (ai_pipeline w s)) =
        heading_said ++ nl ++ sentinel ++ nl ++ nl
        ++ heading_answer ++ nl ++ answer.

(** Every sample of the list is [+0.0]. *)
Definition all_zero (l : list float32) : Prop :=
  Forall (fun x => x = S754_zero false) l.

(** No divisor of the list is a zero. *)
Definition no_zero_divisor (l : list float32) : Prop :=
  Forall (fun d => f32_is_zero d = false) l.

(** The average of one frame over its channels, as [np.mean(..., axis=1)]
    takes it. *)
Definition channel_average (cols : nat) (frame : list float32) : float32 :=
  f32_div (row_sum frame) (mean_count cols).

(** The 16-bit samples [stop_recording] of main.py derives from a mono
    signal with a given peak. *)
Definition pcm_of_mono (mono : list float32) (peak : float32) : list int16 :=
  if f32_ltb (f32_of_Z 0) peak
  then map (fun x => int16_of_f32 (f32_mul (f32_div x peak) (f32_of_Z 32767))) mono
  else map int16_of_f32 mono.

(** A mono 16-bit PCM wave file at 44100 Hz holding the given samples. *)
Definition mono_wav (pcm : list int16) : wav :=
  mkWav 44100 1 PCM 16 (map (fun x => [SInt (int16_val x)]) pcm).

(** A state with a short stereo recording, and one with a short
    one-channel recording as [sd.rec(channels=1)] shapes it. *)
Definition half : float32 := S754_finite false 8388608 (-24).
Definition quarter : float32 := S754_finite false 8388608 (-25).

Definition stereo_state : state :=
  set_recording
    (Some (Arr2 2 [[half; quarter]; [SFopp half; SFopp half]; [S754_zero false; half]]))
    (main_py.build example_files).

Definition one_channel_state : state :=
  set_recording
    (Some (Arr2 1 [[half]; [SFopp quarter]; [S754_zero false]]))
    (test_py.build example_files).

(** The state after a division of [a] by [d] has been recorded. *)
Definition logged (a : ndarray float32) (d : float32) (s : state) : state :=
  match ravel a with
  | [] => s
  | _ :: _ => set_divisors (d :: divisors s) s
  end.

(** The mono signal [stop_recording] of main.py works on. *)
Definition mono_of (r : ndarray float32) : list float32 :=
  match r with
  | Arr1 v => v
  | Arr2 cols rows => map (channel_average cols) rows
  end.


(** ** The buttons and the pipeline thread

    [build] binds the three handlers to the [on_press] of their buttons; a
    disabled button dispatches nothing.  A thread started by
    [generate_response] runs [ai_pipeline] at some later point.  Every event
    meets the world as it is then. *)

Record handlers : Type := mkHandlers {
  on_start : M unit;
  on_stop : M unit;
  on_generate : M unit;
  thread_target : M unit;
  wave_file : string
}.

Definition main_handlers : handlers :=
  mkHandlers main_py.start_recording main_py.stop_recording
    main_py.generate_response main_py.ai_pipeline main_py.AUDIO_FILE.

Definition test_handlers : handlers :=
  mkHandlers test_py.start_recording test_py.stop_recording
    test_py.generate_response test_py.ai_pipeline test_py.AUDIO_FILE.

Inductive event : Type := PressStart | PressStop | PressGenerate | ThreadRuns.

(** The running application: its state and the number of pipeline threads
    that have run to their end. *)
Record app : Type := mkApp {
  app_state : state;
  finished : nat
}.

Definition dispatch (disabled : bool) (handler : M unit) (w : env) (a : app) : app :=
  if disabled then a else mkApp (snd (handler w (app_state a))) (finished a).

Definition step (h : handlers) (a : app) (we : env * event) : app :=
  let (w, e) := we in
  match e with
  | PressStart => dispatch (start_btn (app_state a)) (on_start h) w a
  | PressStop => dispatch (stop_btn (app_state a)) (on_stop h) w a
  | PressGenerate => dispatch (gen_btn (app_state a)) (on_generate h) w a
  | ThreadRuns =>
      if Nat.ltb (finished a) (threads (app_state a))
      then mkApp (snd (thread_target h w (app_state a))) (S (finished a))
      else a
  end.

Definition run (h : handlers) (trace : list (env * event)) (a : app) : app :=
  fold_left (step h) trace a.

(** A pipeline thread has been started and has not run yet. *)
Definition thread_pending (a : app) : Prop :=
  (finished a < threads (app_state a))%nat.

(** What holds of the application whatever is pressed: one of Start and Stop
    is enabled, and while Generate is enabled or a thread is pending the wave
    file is on disk. *)
Definition buttons_consistent (h : handlers) (a : app) : Prop :=
  start_btn (app_state a) = negb (stop_btn (app_state a)) /\
  (gen_btn (app_state a) = false \/ thread_pending a ->
   files (app_state a) (wave_file h) <> None).

(** While Stop is enabled there is a recording buffer. *)
Definition stop_has_buffer (a : app) : Prop :=
  stop_btn (app_state a) = false -> recording (app_state a) <> None.


(** Either the handler raised, buttons and label are as before and every
    file that was there still is, or it completed: Stop disabled, Start and
    Generate enabled, the file there. *)
Definition stop_outcome (file : string) (s : state) (r : result unit) (s' : state) : Prop :=
  threads s' = threads s /\
  recording s' <> None /\
  ((raised r = true /\
    start_btn s' = start_btn s /\ stop_btn s' = stop_btn s /\
    gen_btn s' = gen_btn s /\
    (forall g, files s g <> None -> files s' g <> None) /\
    response_label s' = response_label s) \/
   (r = Ok tt /\
    start_btn s' = false /\ stop_btn s' = true /\ gen_btn s' = false /\
    files s' file <> None)).


(** What the pipeline thread leaves alone: the Start and Stop buttons, the
    recording buffer, the stream, the files, the thread count. *)
Definition untouched_by_pipeline (s s' : state) : Prop :=
  start_btn s' = start_btn s /\ stop_btn s' = stop_btn s /\
  recording s' = recording s /\ stream_active s' = stream_active s /\
  files s' = files s /\ threads s' = threads s /\
  monitor_device s' = monitor_device s /\ divisors s' = divisors s.


(** A server that answers with an error object, and one that answers with
    status 500 around a well-formed body. *)
Definition env_error_reply : env :=
  with_server
    (fun _ _ => Ok (mkResponse None
                      (Ok (JObj [("error", JStr "model 'phi3:mini' not found")]))))
    example_env.

Definition server_error : exn :=
  mkExn HTTPError
    "500 Server Error: Internal Server Error for url: http://localhost:11434/api/chat".

Definition env_http_500 : env :=
  with_server (fun _ _ => Ok (mkResponse (Some server_error) (Ok example_answer)))
    example_env.


(** Nothing can be done any more: Start and Generate are disabled, there is
    no buffer, no thread is pending, and label and files are fixed. *)
Definition stuck (fs : string -> option file) (label : string) (a : app) : Prop :=
  start_btn (app_state a) = true /\
  gen_btn (app_state a) = true /\
  recording (app_state a) = None /\
  files (app_state a) = fs /\
  response_label (app_state a) = label /\
  (threads (app_state a) <= finished a)%nat.

(** * Properties *)

(** ** Strings: [in] and [lower] *)

Lemma starts_with_app (p s : string) :
  starts_with p s = true <-> exists t, s = p ++ t.
Proof.
  revert s; induction p as [|a p IH]; intros s; simpl.
  - split; [intros _; now exists s | reflexivity].
  - destruct s as [|b s].
    + split; [discriminate | intros [t Ht]; discriminate].
    + rewrite andb_true_iff, Ascii.eqb_eq, IH. split.
      * intros [-> [t ->]]. now exists t.
      * intros [t Ht]. injection Ht as -> ->. split; [reflexivity | now exists t].
Qed.

Lemma str_in_app (p s : string) :
  str_in p s = true <-> exists pre post, s = pre ++ p ++ post.
Proof.
  induction s as [|c s IH].
  - simpl. rewrite orb_false_r, starts_with_app. split.
    + intros [t Ht]. now exists "", t.
    + intros [pre [post H]]. destruct pre; [now exists post | discriminate].
  - cbn [str_in]. rewrite orb_true_iff, starts_with_app, IH. split.
    + intros [[t Ht] | [pre [post H]]].
      * now exists "", t.
      * exists (String c pre), post. simpl. now rewrite H.
    + intros [[|c' pre] [post H]].
      * left. now exists post.
      * right. simpl in H. injection H as -> ->. now exists pre, post.
Qed.

Lemma lower_app (a b : string) : lower (a ++ b) = lower a ++ lower b.
Proof. induction a as [|c a IH]; simpl; [reflexivity | now rewrite IH]. Qed.

Lemma lower_split (s a b : string) :
  lower s = a ++ b ->
  exists a' b', s = a' ++ b' /\ lower a' = a /\ lower b' = b.
Proof.
  revert s; induction a as [|c a IH]; intros s H.
  - exists "", s. auto.
  - destruct s as [|c' s]; [discriminate|].
    simpl in H. injection H as Hc Hs.
    destruct (IH s Hs) as [a' [b' [-> [Ha Hb]]]].
    exists (String c' a'), b'. simpl. now rewrite Hc, Ha, Hb.
Qed.

Lemma str_in_lower_ci (word s : string) :
  str_in word (lower s) = true <-> contains_ci word s.
Proof.
  rewrite str_in_app. split.
  - intros [pre [post H]].
    destruct (lower_split _ _ _ H) as [pre' [rest [-> [_ Hrest]]]].
    destruct (lower_split _ _ _ Hrest) as [w [post' [-> [Hw _]]]].
    now exists pre', w, post'.
  - intros [pre [w [post [-> Hw]]]].
    exists (lower pre), (lower post). now rewrite !lower_app, Hw.
Qed.

(** ** [get_monitor_device] *)

Lemma monitor_test_spec (d : device) :
  monitor_test d = true <-> monitor_input d.
Proof.
  unfold monitor_test, monitor_input.
  now rewrite andb_true_iff, str_in_lower_ci, Z.ltb_lt.
Qed.

Lemma monitor_loop_found (devices : list device) :
  forall (k i : nat) (w : env) (s : state),
    fst (main_py.monitor_loop k devices w s) = Ok i <->
    exists j, i = (k + j)%nat /\ first_index monitor_input devices j.
Proof.
  induction devices as [|d rest IH]; intros k i w s.
  - simpl. split; [discriminate|].
    intros [j [_ [[d [Hd _]] _]]]. destruct j; discriminate.
  - cbn [main_py.monitor_loop]. fold (monitor_test d).
    destruct (monitor_test d) eqn:Ht.
    + apply monitor_test_spec in Ht. cbn. split.
      * intros H. injection H as <-. exists 0%nat. split; [lia|].
        split; [now exists d | intros j d' Hj; lia].
      * intros [j [-> [_ Hmin]]]. destruct j as [|j]; [f_equal; lia|].
        exfalso. apply (Hmin 0%nat d); [lia | reflexivity | exact Ht].
    + assert (Hn : ~ monitor_input d).
      { rewrite <- monitor_test_spec, Ht. discriminate. }
      rewrite IH. split.
      * intros [j [-> [[d' [Hd' HP]] Hmin]]]. exists (S j). split; [lia|].
        split; [now exists d'|].
        intros [|j'] d'' Hlt Hnth; simpl in Hnth.
        -- now injection Hnth as <-.
        -- apply (Hmin j' d''); [lia | exact Hnth].
      * intros [[|j] [-> [[d' [Hd' HP]] Hmin]]]; simpl in Hd'.
        -- injection Hd' as <-. contradiction.
        -- exists j. split; [lia|]. split; [now exists d'|].
           intros j' d'' Hlt Hnth. apply (Hmin (S j') d''); [lia | exact Hnth].
Qed.

Lemma monitor_loop_outcome (devices : list device) :
  forall (k : nat) (w : env) (s : state),
    (exists i, fst (main_py.monitor_loop k devices w s) = Ok i) \/
    fst (main_py.monitor_loop k devices w s) =
      Raise (mkExn PyException
               "No PulseAudio monitor device found. Install pavucontrol.").
Proof.
  induction devices as [|d rest IH]; intros k w s.
  - right. reflexivity.
  - cbn [main_py.monitor_loop]. fold (monitor_test d).
    destruct (monitor_test d); [left; now exists k | apply IH].
Qed.

Lemma monitor_loop_raises (devices : list device) :
  forall (k : nat) (w : env) (s : state),
    raised (fst (main_py.monitor_loop k devices w s)) = true <->
    forall d, In d devices -> ~ monitor_input d.
Proof.
  induction devices as [|d rest IH]; intros k w s.
  - simpl. split; [intros _ d [] | reflexivity].
  - cbn [main_py.monitor_loop]. fold (monitor_test d).
    destruct (monitor_test d) eqn:Ht.
    + cbn. split; [discriminate|].
      intros H. exfalso. apply (H d); [now left | now apply monitor_test_spec].
    + rewrite IH. split.
      * intros H d' [<- | Hin]; [|now apply H].
        rewrite <- monitor_test_spec, Ht. discriminate.
      * intros H d' Hin. apply H. now right.
Qed.

(** C2.  Given the device list, [get_monitor_device] returns [i] exactly when
    [i] is the position of the first input device whose name contains
    "monitor" in any letter case, and it raises exactly when the list has no
    such device; the exception is the one built in its last line. *)
Theorem get_monitor_device_first_monitor_input :
  forall (w : env) (s : state) (devices : list device),
    query_devices w = Ok devices ->
    (forall i, fst (main_py.get_monitor_device w s) = Ok i <->
               first_index monitor_input devices i) /\
    (raised (fst (main_py.get_monitor_device w s)) = true <->
     ~ exists i d, nth_error devices i = Some d /\ monitor_input d) /\
    (forall e, fst (main_py.get_monitor_device w s) = Raise e ->
               e = mkExn PyException
                     "No PulseAudio monitor device found. Install pavucontrol.").
Proof.
  intros w s devices Hq.
  assert (E : main_py.get_monitor_device w s = main_py.monitor_loop 0 devices w s).
  { unfold main_py.get_monitor_device, sd_query_devices, bind, ask, lift.
    now rewrite Hq. }
  rewrite E. split; [|split].
  - intros i. rewrite monitor_loop_found. split.
    + intros [j [-> H]]. exact H.
    + intros H. now exists i.
  - rewrite monitor_loop_raises. split.
    + intros H [i [d [Hnth HP]]]. apply (H d); [|exact HP].
      eapply nth_error_In; eassumption.
    + intros H d Hin HP. apply H.
      destruct (In_nth_error _ _ Hin) as [i Hi]. now exists i, d.
  - intros e He.
    destruct (monitor_loop_outcome devices 0 w s) as [[i Hi] | Hraise];
      congruence.
Qed.

Lemma get_monitor_device_first_monitor_input_witness :
  fst (main_py.get_monitor_device example_env (main_py.build example_files)) = Ok 2%nat
  <-> first_index monitor_input example_devices 2.
Proof.
  apply (get_monitor_device_first_monitor_input
           example_env (main_py.build example_files) example_devices).
  reflexivity.
Defined.

Example get_monitor_device_example :
  fst (main_py.get_monitor_device example_env (main_py.build example_files)) = Ok 2%nat.
Proof. reflexivity. Qed.

(** ** Running the monad *)

Ltac run_m :=
  unfold bind, ret, raise, lift, get, ask, modify, print, sd_stop,
    sd_query_devices, sr_recognize_google, record_audio_file, post,
    response_raise_for_status, start_thread in *.

Lemma try_except_ok {A} (body : M A) clauses (w : env) (s s' : state) (a : A) :
  body w s = (Ok a, s') -> try_except body clauses w s = (Ok a, s').
Proof. intros H. unfold try_except. now rewrite H. Qed.

(** ** [stop_recording] without a buffer *)

(** C8.  In main.py, [stop_recording] called while [self.recording] is [None]
    returns at once: no wave file is written, the label and the three
    buttons keep their values; only the audio stream is stopped. *)
Theorem stop_recording_without_buffer_is_a_no_op :
  forall (w : env) (s : state),
    recording s = None ->
    exists s',
      main_py.stop_recording w s = (Ok tt, s') /\
      s' = set_stream_active false s /\
      files s' = files s /\
      response_label s' = response_label s /\
      start_btn s' = start_btn s /\
      stop_btn s' = stop_btn s /\
      gen_btn s' = gen_btn s /\
      recording s' = None.
Proof.
  intros w s H. exists (set_stream_active false s).
  unfold main_py.stop_recording. run_m. cbn. rewrite H. repeat split; reflexivity.
Qed.

Lemma stop_recording_without_buffer_is_a_no_op_witness :
  exists s',
    main_py.stop_recording example_env (main_py.build example_files) = (Ok tt, s') /\
    s' = set_stream_active false (main_py.build example_files) /\
    files s' = example_files /\
    response_label s' = "[b]Press Start to record Speaker Audio[/b]" /\
    start_btn s' = false /\
    stop_btn s' = true /\
    gen_btn s' = true /\
    recording s' = None.
Proof.
  apply (stop_recording_without_buffer_is_a_no_op
           example_env (main_py.build example_files)).
  reflexivity.
Defined.

(** ** [transcribe] *)

Lemma recognize_or_sentinel_spec (su sr : string) (audio : wav)
    (w : env) (s : state) :
  snd (recognize_or_sentinel su sr audio w s) = s /\
  match recognize_google w audio with
  | Ok text => fst (recognize_or_sentinel su sr audio w s) = Ok text
  | Raise e =>
      match exn_cls e with
      | UnknownValueError => fst (recognize_or_sentinel su sr audio w s) = Ok su
      | RequestError => fst (recognize_or_sentinel su sr audio w s) = Ok sr
      | _ => fst (recognize_or_sentinel su sr audio w s) = Raise e
      end
  end /\
  (forall text, fst (recognize_or_sentinel su sr audio w s) = Ok text ->
     text = su \/ text = sr \/ exists a, recognize_google w a = Ok text) /\
  (forall e, fst (recognize_or_sentinel su sr audio w s) = Raise e ->
     exn_cls e <> UnknownValueError /\ exn_cls e <> RequestError).
Proof.
  unfold recognize_or_sentinel, try_except. run_m. cbn.
  destruct (recognize_google w audio) as [t|[c msg]] eqn:Hr.
  - cbn. split; [reflexivity|]. split; [reflexivity|].
    split; [|intros e H; discriminate].
    intros text H. injection H as <-. right; right. now exists audio.
  - destruct c; cbn;
      (split; [reflexivity|]); (split; [reflexivity|]);
      (split;
       [ intros text H; first [discriminate | injection H as <-; auto]
       | intros e H; first [discriminate
                           | injection H as <-; cbn; split; discriminate] ]).
Qed.

Lemma record_audio_file_state (F : string) (w : env) (s : state) :
  snd (record_audio_file F w s) = s.
Proof.
  unfold record_audio_file. run_m.
  destruct (files s F) as [[audio|]|]; [| |reflexivity].
  - now destruct (wav_format audio).
  - now destruct (read_cut_short w).
Qed.

Lemma record_audio_file_pcm (F : string) (w : env) (s : state) (audio : wav) :
  files s F = Some (WaveFile audio) ->
  wav_format audio = PCM ->
  record_audio_file F w s = (Ok audio, s).
Proof.
  intros Hf Hp. unfold record_audio_file. run_m. now rewrite Hf, Hp.
Qed.

Lemma record_audio_file_missing (F : string) (w : env) (s : state) :
  files s F = None ->
  record_audio_file F w s
  = (Raise (mkExn FileNotFoundError
              ("[Errno 2] No such file or directory: '" ++ F ++ "'")), s).
Proof.
  intros Hf. unfold record_audio_file. run_m. now rewrite Hf.
Qed.

Lemma record_audio_file_raises (F : string) (w : env) (s : state) (e : exn) :
  fst (record_audio_file F w s) = Raise e ->
  exn_cls e <> UnknownValueError /\ exn_cls e <> RequestError.
Proof.
  unfold record_audio_file. run_m.
  destruct (files s F) as [[audio|]|].
  - destruct (wav_format audio); [discriminate|].
    destruct (read_refusal w); cbn; intros H; injection H as <-;
      split; discriminate.
  - destruct (read_cut_short w); [discriminate|].
    destruct (read_refusal w); cbn; intros H; injection H as <-;
      split; discriminate.
  - cbn. intros H. injection H as <-. split; discriminate.
Qed.

Lemma main_transcribe_unfold (w : env) (s : state) :
  main_py.transcribe w s =
  match fst (record_audio_file main_py.AUDIO_FILE w s) with
  | Ok audio =>
      recognize_or_sentinel "Could not understand audio." "Google API error."
        audio w s
  | Raise e => (Raise e, s)
  end.
Proof.
  unfold main_py.transcribe, recognize_or_sentinel. unfold bind at 1.
  pose proof (record_audio_file_state main_py.AUDIO_FILE w s) as Hs.
  destruct (record_audio_file main_py.AUDIO_FILE w s) as [[audio|e] s1];
    cbn in Hs |- *; now subst s1.
Qed.

Lemma test_transcribe_unfold (w : env) (s : state) :
  test_py.transcribe w s =
  match fst (record_audio_file test_py.AUDIO_FILE w s) with
  | Ok audio =>
      recognize_or_sentinel "❌ Could not understand the audio."
        "⚠️ Google API error." audio w s
  | Raise e => (Raise e, s)
  end.
Proof.
  unfold test_py.transcribe, recognize_or_sentinel. unfold bind at 1.
  pose proof (record_audio_file_state test_py.AUDIO_FILE w s) as Hs.
  destruct (record_audio_file test_py.AUDIO_FILE w s) as [[audio|e] s1];
    cbn in Hs |- *; now subst s1.
Qed.

Lemma transcribe_spec_of_unfold (F su sr : string) (tr : M string)
    (w : env) (s : state) :
  tr w s =
  match fst (record_audio_file F w s) with
  | Ok audio => recognize_or_sentinel su sr audio w s
  | Raise e => (Raise e, s)
  end ->
  transcribe_spec F su sr tr w s.
Proof.
  intros Hu. unfold transcribe_spec. rewrite Hu.
  destruct (fst (record_audio_file F w s)) as [audio|e0] eqn:Hread.
  - destruct (recognize_or_sentinel_spec su sr audio w s) as [H1 [H2 [H3 H4]]].
    split; [exact H1|]. split; [|split; [exact H3 | exact H4]].
    intros a Ha Hpcm.
    rewrite (record_audio_file_pcm F w s a Ha Hpcm) in Hread.
    injection Hread as ->. exact H2.
  - split; [reflexivity|]. split; [|split].
    + intros a Ha Hpcm.
      rewrite (record_audio_file_pcm F w s a Ha Hpcm) in Hread. discriminate.
    + intros text Ht. discriminate.
    + intros e He. cbn in He. injection He as <-.
      exact (record_audio_file_raises F w s e0 Hread).
Qed.

Lemma main_transcribe_spec (w : env) (s : state) :
  transcribe_spec main_py.AUDIO_FILE
    "Could not understand audio." "Google API error."
    main_py.transcribe w s.
Proof.
  apply transcribe_spec_of_unfold, main_transcribe_unfold.
Qed.

Lemma test_transcribe_spec (w : env) (s : state) :
  transcribe_spec test_py.AUDIO_FILE
    "❌ Could not understand the audio." "⚠️ Google API error."
    test_py.transcribe w s.
Proof.
  apply transcribe_spec_of_unfold, test_transcribe_unfold.
Qed.

(** C4.  With a PCM wave file on disk, [transcribe] returns the text the
    recogniser gives; when the recogniser raises [UnknownValueError] it
    returns the first sentinel, when it raises [RequestError] the second,
    the sentinels being those of the file at hand; any other exception of
    the recogniser leaves it.  It never changes the state, a string it
    returns is a sentinel or a recognised text, and an exception it lets
    through is neither of the two it handles. *)
Theorem transcribe_text_or_sentinel :
  forall (w : env) (s : state),
    transcribe_spec main_py.AUDIO_FILE
      "Could not understand audio." "Google API error."
      main_py.transcribe w s /\
    transcribe_spec test_py.AUDIO_FILE
      "❌ Could not understand the audio." "⚠️ Google API error."
      test_py.transcribe w s.
Proof.
  intros w s. split; [apply main_transcribe_spec | apply test_transcribe_spec].
Qed.

Lemma transcribe_text_or_sentinel_witness :
  (fst (main_py.transcribe example_env (main_py.build example_files))
     = Ok "tell me about yourself" /\
   fst (main_py.transcribe env_unintelligible (main_py.build example_files))
     = Ok "Could not understand audio." /\
   fst (main_py.transcribe env_unreachable (main_py.build example_files))
     = Ok "Google API error.") /\
  (fst (test_py.transcribe example_env (test_py.build example_files))
     = Ok "tell me about yourself" /\
   fst (test_py.transcribe env_unintelligible (test_py.build example_files))
     = Ok "❌ Could not understand the audio." /\
   fst (test_py.transcribe env_unreachable (test_py.build example_files))
     = Ok "⚠️ Google API error.").
Proof.
  split; (split; [|split]).
  - exact (proj1 (proj2 (proj1 (transcribe_text_or_sentinel example_env
                                  (main_py.build example_files))))
             example_wav eq_refl eq_refl).
  - exact (proj1 (proj2 (proj1 (transcribe_text_or_sentinel env_unintelligible
                                  (main_py.build example_files))))
             example_wav eq_refl eq_refl).
  - exact (proj1 (proj2 (proj1 (transcribe_text_or_sentinel env_unreachable
                                  (main_py.build example_files))))
             example_wav eq_refl eq_refl).
  - exact (proj1 (proj2 (proj2 (transcribe_text_or_sentinel example_env
                                  (test_py.build example_files))))
             example_wav eq_refl eq_refl).
  - exact (proj1 (proj2 (proj2 (transcribe_text_or_sentinel env_unintelligible
                                  (test_py.build example_files))))
             example_wav eq_refl eq_refl).
  - exact (proj1 (proj2 (proj2 (transcribe_text_or_sentinel env_unreachable
                                  (test_py.build example_files))))
             example_wav eq_refl eq_refl).
Defined.

(** The sentinel a failed recognition turns into. *)
Lemma recognize_failure_sentinel (sentinel_unknown sentinel_request : string)
    (w : env) (s : state) (audio : wav) (e : exn) :
  recognize_google w audio = Raise e ->
  (exn_cls e = UnknownValueError ->
   recognize_or_sentinel sentinel_unknown sentinel_request audio w s
   = (Ok sentinel_unknown, s)) /\
  (exn_cls e = RequestError ->
   recognize_or_sentinel sentinel_unknown sentinel_request audio w s
   = (Ok sentinel_request, s)).
Proof.
  intros Hr. unfold recognize_or_sentinel, try_except. run_m. cbn. rewrite Hr.
  split; intros Hc; cbn; rewrite Hc; reflexivity.
Qed.

(** ** [call_llama] *)

Lemma main_call_llama_run (transcript : string) (w : env) (s : state) :
  main_py.call_llama transcript w s =
  (chat_result w main_py.OLLAMA_URL (main_py.payload transcript),
   set_requests_sent
     ((main_py.OLLAMA_URL, main_py.payload transcript) :: requests_sent s) s).
Proof.
  unfold main_py.call_llama, chat_result. run_m. cbn.
  destruct (requests_post w _ _) as [r|e]; [|reflexivity].
  destruct (raise_for_status r); [reflexivity|].
  destruct (response_json r) as [b|e]; [|reflexivity].
  destruct (py_getitem b "message") as [m|e]; [|reflexivity].
  destruct (py_getitem m "content"); reflexivity.
Qed.

Lemma test_call_llama_run (transcript : string) (w : env) (s : state) :
  test_py.call_llama transcript w s =
  (chat_result w test_py.url (test_py.payload transcript),
   set_requests_sent
     ((test_py.url, test_py.payload transcript) :: requests_sent s) s).
Proof.
  unfold test_py.call_llama, chat_result. run_m. cbn.
  destruct (requests_post w _ _) as [r|e]; [|reflexivity].
  destruct (raise_for_status r); [reflexivity|].
  destruct (response_json r) as [b|e]; [|reflexivity].
  destruct (py_getitem b "message") as [m|e]; [|reflexivity].
  destruct (py_getitem m "content"); reflexivity.
Qed.

Lemma chat_result_content (w : env) (url : string) (body : json)
    (r : response) (b message content : json) :
  requests_post w url body = Ok r ->
  raise_for_status r = None ->
  response_json r = Ok b ->
  py_getitem b "message" = Ok message ->
  py_getitem message "content" = Ok content ->
  chat_result w url body = Ok content.
Proof.
  intros H1 H2 H3 H4 H5. unfold chat_result. now rewrite H1, H2, H3, H4, H5.
Qed.

(** C7, as stated, fails: besides the model name, the message list and the
    length cap, the body that [call_llama] posts has a fourth field,
    ["stream"], set to [False]. *)
Lemma call_llama_body_has_a_stream_field :
  keys (last_body (snd (main_py.call_llama "tell me about yourself" example_env
                          (main_py.build example_files))))
  <> ["model"; "messages"; "options"] /\
  py_getitem
    (last_body (snd (main_py.call_llama "tell me about yourself" example_env
                       (main_py.build example_files))))
    "stream" = Ok (JBool false).
Proof.
  rewrite main_call_llama_run. cbn.
  split; [discriminate | reflexivity].
Qed.

(** C7, amended.  [call_llama] posts to the local chat endpoint a body with
    exactly four fields: the model name, a list of one system and one user
    message whose content is the transcript, the stream switch set to
    [False], and the options holding [num_predict = 150]; it returns the
    value of the reply at ["message"]["content"]. *)
Theorem call_llama_posts_chat_body :
  call_llama_spec main_py.call_llama system_main /\
  call_llama_spec test_py.call_llama system_test.
Proof.
  split; intros w s transcript.
  - rewrite main_call_llama_run. cbn [fst snd]. split; [reflexivity|].
    intros r body message content H1 H2 H3 H4 H5.
    exact (chat_result_content _ _ _ _ _ _ _ H1 H2 H3 H4 H5).
  - rewrite test_call_llama_run. cbn [fst snd]. split; [reflexivity|].
    intros r body message content H1 H2 H3 H4 H5.
    exact (chat_result_content _ _ _ _ _ _ _ H1 H2 H3 H4 H5).
Qed.

Lemma call_llama_posts_chat_body_witness :
  fst (main_py.call_llama "tell me about yourself" example_env
         (main_py.build example_files)) = Ok (JStr "1. Stay calm.") /\
  fst (test_py.call_llama "tell me about yourself" example_env
         (test_py.build example_files)) = Ok (JStr "1. Stay calm.").
Proof.
  destruct call_llama_posts_chat_body as [Hmain Htest]. split.
  - apply (proj2 (Hmain example_env (main_py.build example_files)
                    "tell me about yourself")
             (mkResponse None (Ok example_answer)) example_answer
             (JObj [("role", JStr "assistant"); ("content", JStr "1. Stay calm.")])
             (JStr "1. Stay calm.")); reflexivity.
  - apply (proj2 (Htest example_env (test_py.build example_files)
                    "tell me about yourself")
             (mkResponse None (Ok example_answer)) example_answer
             (JObj [("role", JStr "assistant"); ("content", JStr "1. Stay calm.")])
             (JStr "1. Stay calm.")); reflexivity.
Defined.

(** ** [ai_pipeline] *)

Lemma try_finally_gen_btn {A} (body : M A) (w : env) (s : state) :
  try_finally body (modify (set_gen_btn false)) w s =
  (fst (body w s), set_gen_btn false (snd (body w s))).
Proof. unfold try_finally, modify. now destruct (body w s). Qed.

Lemma main_transcribe_sentinel (w : env) (s : state) (audio : wav) (e : exn) :
  files s main_py.AUDIO_FILE = Some (WaveFile audio) ->
  wav_format audio = PCM ->
  recognize_google w audio = Raise e ->
  (exn_cls e = UnknownValueError ->
   main_py.transcribe w s = (Ok "Could not understand audio.", s)) /\
  (exn_cls e = RequestError ->
   main_py.transcribe w s = (Ok "Google API error.", s)).
Proof.
  intros Hf Hpcm Hr.
  rewrite main_transcribe_unfold, (record_audio_file_pcm _ w s audio Hf Hpcm).
  exact (recognize_failure_sentinel _ _ w s audio e Hr).
Qed.

Lemma test_transcribe_sentinel (w : env) (s : state) (audio : wav) (e : exn) :
  files s test_py.AUDIO_FILE = Some (WaveFile audio) ->
  wav_format audio = PCM ->
  recognize_google w audio = Raise e ->
  (exn_cls e = UnknownValueError ->
   test_py.transcribe w s = (Ok "❌ Could not understand the audio.", s)) /\
  (exn_cls e = RequestError ->
   test_py.transcribe w s = (Ok "⚠️ Google API error.", s)).
Proof.
  intros Hf Hpcm Hr.
  rewrite test_transcribe_unfold, (record_audio_file_pcm _ w s audio Hf Hpcm).
  exact (recognize_failure_sentinel _ _ w s audio e Hr).
Qed.

(** The [try] block of the pipeline once the transcript is known. *)
Lemma main_pipeline_try_run (w : env) (s : state) (transcript : string) :
  main_py.transcribe w s = (Ok transcript, s) ->
  main_py.ai_pipeline_try w s =
  match chat_result w main_py.OLLAMA_URL (main_py.payload transcript) with
  | Ok feedback =>
      (Ok tt,
       set_response_label
         ("[b]🎤 Interviewer Said:[/b]" ++ nl ++ transcript ++ nl ++ nl
          ++ "[b]🤖 Suggested Answer:[/b]" ++ nl ++ py_str w feedback)
         (set_requests_sent
            ((main_py.OLLAMA_URL, main_py.payload transcript) :: requests_sent s) s))
  | Raise e =>
      (Raise e,
       set_requests_sent
         ((main_py.OLLAMA_URL, main_py.payload transcript) :: requests_sent s) s)
  end.
Proof.
  intros Ht. unfold main_py.ai_pipeline_try.
  unfold bind at 1. rewrite Ht.
  unfold bind at 1. rewrite main_call_llama_run.
  destruct (chat_result _ _ _); reflexivity.
Qed.

Lemma test_pipeline_try_run (w : env) (s : state) (transcript : string) :
  test_py.transcribe w s = (Ok transcript, s) ->
  test_py.ai_pipeline_try w s =
  match chat_result w test_py.url (test_py.payload transcript) with
  | Ok feedback =>
      (Ok tt,
       set_response_label
         ("[b] Interviewer Say:[/b]" ++ nl ++ transcript ++ nl ++ nl
          ++ "[b]🤖 Generated Answer:[/b]" ++ nl ++ py_str w feedback)
         (set_requests_sent
            ((test_py.url, test_py.payload transcript) :: requests_sent s)
            (set_stdout (("Model testing " ++ transcript) :: stdout s) s)))
  | Raise e =>
      (Raise e,
       set_requests_sent
         ((test_py.url, test_py.payload transcript) :: requests_sent s)
         (set_stdout (("Model testing " ++ transcript) :: stdout s) s))
  end.
Proof.
  intros Ht. unfold test_py.ai_pipeline_try.
  unfold bind at 1. rewrite Ht.
  unfold bind at 1, print, modify.
  unfold bind at 1. rewrite test_call_llama_run.
  destruct (chat_result _ _ _); reflexivity.
Qed.

Lemma main_pipeline_forwards (w : env) (s : state) (transcript : string) :
  main_py.transcribe w s = (Ok transcript, s) ->
  last_body (snd (main_py.ai_pipeline w s)) = main_py.payload transcript /\
  forall feedback : json,
    fst (main_py.call_llama transcript w s) = Ok feedback ->
    fst (main_py.ai_pipeline w s) = Ok tt /\
    response_label (snd (main_py.ai_pipeline w s)) =
      "[b]🎤 Interviewer Said:[/b]" ++ nl ++ transcript ++ nl ++ nl
      ++ "[b]🤖 Suggested Answer:[/b]" ++ nl ++ py_str w feedback.
Proof.
  intros Ht. unfold main_py.ai_pipeline.
  rewrite try_finally_gen_btn. unfold try_except.
  rewrite (main_pipeline_try_run w s transcript Ht), main_call_llama_run.
  cbn [fst].
  destruct (chat_result _ _ _) as [f|e].
  - split; [reflexivity|]. intros feedback Hf. injection Hf as <-.
    split; reflexivity.
  - split; [reflexivity | discriminate].
Qed.

Lemma test_pipeline_forwards (w : env) (s : state) (transcript : string) :
  test_py.transcribe w s = (Ok transcript, s) ->
  last_body (snd (test_py.ai_pipeline w s)) = test_py.payload transcript /\
  forall feedback : json,
    fst (test_py.call_llama transcript w s) = Ok feedback ->
    fst (test_py.ai_pipeline w s) = Ok tt /\
    response_label (snd (test_py.ai_pipeline w s)) =
      "[b] Interviewer Say:[/b]" ++ nl ++ transcript ++ nl ++ nl
      ++ "[b]🤖 Generated Answer:[/b]" ++ nl ++ py_str w feedback.
Proof.
  intros Ht. unfold test_py.ai_pipeline.
  rewrite try_finally_gen_btn. unfold try_except.
  rewrite (test_pipeline_try_run w s transcript Ht), test_call_llama_run.
  cbn [fst].
  destruct (chat_result _ _ _) as [f|e].
  - split; [reflexivity|]. intros feedback Hf. injection Hf as <-.
    split; reflexivity.
  - split; [reflexivity | discriminate].
Qed.

(** C9.  When recognition fails, [ai_pipeline] hands the sentinel string to
    [call_llama] like any transcript: the sentinel is the content of the user
    message posted to the model, and when the model answers with a string,
    the pipeline ends normally and the label shows the sentinel as what was
    said together with the answer. *)
Theorem ai_pipeline_forwards_sentinel :
  forwards_sentinel main_py.AUDIO_FILE main_py.ai_pipeline main_py.call_llama
    main_py.payload UnknownValueError "Could not understand audio."
    "[b]🎤 Interviewer Said:[/b]" "[b]🤖 Suggested Answer:[/b]" /\
  forwards_sentinel main_py.AUDIO_FILE main_py.ai_pipeline main_py.call_llama
    main_py.payload RequestError "Google API error."
    "[b]🎤 Interviewer Said:[/b]" "[b]🤖 Suggested Answer:[/b]" /\
  forwards_sentinel test_py.AUDIO_FILE test_py.ai_pipeline test_py.call_llama
    test_py.payload UnknownValueError "❌ Could not understand the audio."
    "[b] Interviewer Say:[/b]" "[b]🤖 Generated Answer:[/b]" /\
  forwards_sentinel test_py.AUDIO_FILE test_py.ai_pipeline test_py.call_llama
    test_py.payload RequestError "⚠️ Google API error."
    "[b] Interviewer Say:[/b]" "[b]🤖 Generated Answer:[/b]".
Proof.
  split; [|split; [|split]]; intros w s audio e Hf Hpcm Hr Hc.
  - destruct (main_transcribe_sentinel w s audio e Hf Hpcm Hr) as [Hu _].
    destruct (main_pipeline_forwards w s _ (Hu Hc)) as [Hb Hl].
    split; [exact Hb | split; [reflexivity|]].
    intros answer Ha. exact (Hl (JStr answer) Ha).
  - destruct (main_transcribe_sentinel w s audio e Hf Hpcm Hr) as [_ Hq].
    destruct (main_pipeline_forwards w s _ (Hq Hc)) as [Hb Hl].
    split; [exact Hb | split; [reflexivity|]].
    intros answer Ha. exact (Hl (JStr answer) Ha).
  - destruct (test_transcribe_sentinel w s audio e Hf Hpcm Hr) as [Hu _].
    destruct (test_pipeline_forwards w s _ (Hu Hc)) as [Hb Hl].
    split; [exact Hb | split; [reflexivity|]].
    intros answer Ha. exact (Hl (JStr answer) Ha).
  - destruct (test_transcribe_sentinel w s audio e Hf Hpcm Hr) as [_ Hq].
    destruct (test_pipeline_forwards w s _ (Hq Hc)) as [Hb Hl].
    split; [exact Hb | split; [reflexivity|]].
    intros answer Ha. exact (Hl (JStr answer) Ha).
Qed.

(** C10.  Whatever the [try] block of [ai_pipeline] does, the [finally]
    block runs: after every run the Generate button is enabled again. *)
Theorem ai_pipeline_reenables_generate :
  forall (w : env) (s : state),
    gen_btn (snd (main_py.ai_pipeline w s)) = false /\
    gen_btn (snd (test_py.ai_pipeline w s)) = false.
Proof.
  intros w s. unfold main_py.ai_pipeline, test_py.ai_pipeline.
  rewrite !try_finally_gen_btn. split; reflexivity.
Qed.

(** ** Arrays and floats *)

Arguments f32_add : simpl never.
Arguments f32_mul : simpl never.
Arguments f32_div : simpl never.
Arguments f32_ltb : simpl never.
Arguments f32_leb : simpl never.
Arguments f32_of_Z : simpl never.
Arguments int16_of_f32 : simpl never.
Arguments mean_count : simpl never.
Arguments rec_buffer : simpl never.

Lemma ravel_np_map {A B} (f : A -> B) (a : ndarray A) :
  ravel (np_map f a) = map f (ravel a).
Proof.
  destruct a as [v | cols rows]; cbn; [reflexivity|].
  now rewrite concat_map.
Qed.

Lemma shape_rec_buffer (w : env) (frames : Z) (channels : nat) :
  shape (rec_buffer w frames channels) = [Z.to_nat frames; channels].
Proof. unfold rec_buffer. cbn [shape]. now rewrite length_map, length_seq. Qed.

Lemma fold_maximum_zero (l : list float32) :
  all_zero l -> fold_left npy_maximum l (S754_zero false) = S754_zero false.
Proof.
  induction 1 as [|x l Hx _ IH]; [reflexivity|].
  cbn [fold_left]. now rewrite Hx.
Qed.

Lemma np_max_abs_zero (a : ndarray float32) :
  all_zero (ravel a) -> ravel a <> [] ->
  np_max (np_abs a) = Ok (S754_zero false).
Proof.
  intros Hz Hne. unfold np_max, np_abs. rewrite ravel_np_map.
  destruct (ravel a) as [|x xs]; [contradiction|].
  inversion Hz as [|? ? Hx Hxs]; subst. cbn [map f32_abs SFabs].
  f_equal. apply fold_maximum_zero.
  clear -Hxs. induction Hxs as [|y l Hy _ IH]; constructor; [now rewrite Hy | exact IH].
Qed.

Lemma f32_ltb_zero_nonzero (x : float32) :
  f32_ltb (f32_of_Z 0) x = true -> f32_is_zero x = false.
Proof. destruct x; [discriminate | reflexivity..]. Qed.

Lemma rec_buffer_silent (w : env) (frames : Z) (channels : nat) :
  (forall i c, captured w i c = S754_zero false) ->
  all_zero (ravel (rec_buffer w frames channels)).
Proof.
  intros Hs. unfold rec_buffer, all_zero. cbn [ravel].
  apply Forall_concat. apply Forall_map. apply Forall_forall. intros i _.
  apply Forall_map. apply Forall_forall. intros c _. apply Hs.
Qed.

Lemma rec_buffer_nonempty (w : env) (frames : Z) (channels : nat) :
  0 < frames ->
  ravel (rec_buffer w frames (S channels)) <> [].
Proof.
  intros Hf. unfold rec_buffer. cbn [ravel].
  destruct (Z.to_nat frames) as [|n] eqn:E; [lia|].
  cbn. discriminate.
Qed.

Lemma rec_buffer_rows (w : env) (frames : Z) (channels : nat) :
  exists rows, rec_buffer w frames channels = Arr2 channels rows /\
               List.length rows = Z.to_nat frames.
Proof.
  eexists. split; [reflexivity|]. now rewrite length_map, length_seq.
Qed.

(** ** [stop_recording] of test.py on a silent recording *)

Lemma test_start_recording_run (w : env) (s : state) :
  rec_error w 1%nat None = None ->
  test_py.start_recording w s =
  (Ok tt,
   set_recording (Some (rec_buffer w (60 * test_py.SAMPLE_RATE) 1))
     (set_stream_active true
        (set_gen_btn true (set_stop_btn false (set_start_btn true
           (set_response_label "[b]🎙 Recording...[/b]" s)))))).
Proof.
  intros Hr. unfold test_py.start_recording, sd_rec. run_m. cbn.
  rewrite Hr. reflexivity.
Qed.

Lemma test_stop_recording_divisor (w : env) (s : state) (r : ndarray float32)
    (peak : float32) :
  recording s = Some r ->
  np_max (np_abs r) = Ok peak ->
  divisors (snd (test_py.stop_recording w s)) = peak :: divisors s.
Proof.
  intros Hr Hp. unfold test_py.stop_recording, true_divide, log_divisor, write.
  run_m. cbn. rewrite Hr, Hp.
  assert (Hne : exists x xs, ravel r = x :: xs).
  { unfold np_max, np_abs in Hp. rewrite ravel_np_map in Hp.
    destruct (ravel r) as [|x xs]; [discriminate | now exists x, xs]. }
  destruct Hne as [x [xs ->]].
  destruct (write_error w); try destruct (write_cuts_short w); reflexivity.
Qed.

(** C1.  In test.py the division by the peak has no guard.  A session that
    records silence (60 s of samples equal to 0.0) reaches [stop_recording]
    with a peak of 0.0, and the handler divides every sample by it: the
    divisor recorded is a zero and each quotient is 0/0, a NaN. *)
Theorem test_py_stop_recording_divides_by_zero_peak :
  forall fs : string -> option file,
    exists r,
      recording (snd (test_py.start_recording example_env (test_py.build fs)))
        = Some r /\
      map Z.of_nat (shape r) = [2646000; 1] /\
      all_zero (ravel r) /\
      np_max (np_abs r) = Ok (S754_zero false) /\
      divisors
        (snd (test_py.stop_recording example_env
                (snd (test_py.start_recording example_env (test_py.build fs)))))
        = [S754_zero false] /\
      f32_div (S754_zero false) (S754_zero false) = S754_nan.
Proof.
  intros fs.
  rewrite (test_start_recording_run example_env (test_py.build fs) eq_refl).
  cbn [snd].
  set (r := rec_buffer example_env (60 * test_py.SAMPLE_RATE) 1).
  assert (Hz : all_zero (ravel r)) by (apply rec_buffer_silent; reflexivity).
  assert (Hp : np_max (np_abs r) = Ok (S754_zero false)).
  { apply np_max_abs_zero; [exact Hz|].
    apply rec_buffer_nonempty. unfold test_py.SAMPLE_RATE. lia. }
  exists r. split; [reflexivity|]. split.
  { unfold r. rewrite shape_rec_buffer. cbn [map]. rewrite Z2Nat.id.
    - reflexivity.
    - unfold test_py.SAMPLE_RATE. lia. }
  split; [exact Hz|]. split; [exact Hp|]. split; [|reflexivity].
  erewrite test_stop_recording_divisor; [reflexivity | reflexivity | exact Hp].
Qed.

(** The sibling in main.py tests the peak first: a session of main.py never
    divides by a zero. *)
Lemma main_py_stop_recording_guards_the_division (w : env) (s : state)
    (r : ndarray float32) :
  recording s = Some r ->
  (forall cols rows, r = Arr2 cols rows -> cols = 2%nat) ->
  no_zero_divisor (divisors s) ->
  no_zero_divisor (divisors (snd (main_py.stop_recording w s))).
Proof.
  intros Hr Hc Hd.
  unfold main_py.stop_recording, true_divide, mean_axis1, log_divisor, write.
  run_m. cbn. rewrite Hr.
  destruct r as [v | cols rows]; cbn.
  - destruct (np_max _) as [peak|e]; [|exact Hd].
    destruct (f32_ltb (f32_of_Z 0) peak) eqn:Hg.
    + apply f32_ltb_zero_nonzero in Hg.
      destruct v; destruct (write_error w); try destruct (write_cuts_short w); cbn; try exact Hd;
        constructor; assumption.
    + destruct (write_error w); try destruct (write_cuts_short w); exact Hd.
  - rewrite (Hc cols rows eq_refl).
    assert (Hm : no_zero_divisor
                   (divisors
                      (snd (match map (fun r0 : list float32 =>
                                         f32_div (row_sum r0) (mean_count 2)) rows with
                            | [] => fun (_ : env) (s1 : state) => (Ok tt, s1)
                            | _ :: _ => fun (_ : env) (s1 : state) =>
                                (Ok tt, set_divisors (mean_count 2 :: divisors s1) s1)
                            end w (set_stream_active false s))))).
    { destruct (map _ rows); cbn; [exact Hd|]. constructor; [reflexivity | exact Hd]. }
    destruct (map _ rows) as [|m ms]; cbn in *.
    + exact Hd.
    + destruct (fold_left npy_maximum _ _) as [| | |] eqn:Hpk;
        destruct (f32_ltb _ _) eqn:Hg; try discriminate Hg;
        destruct (write_error w); try destruct (write_cuts_short w); cbn; try exact Hm;
        constructor; try exact Hm; reflexivity.
Qed.

(** ** [start_recording] *)

Lemma main_start_recording_try_ok (w : env) (s : state) :
  raised (fst (main_py.start_recording_try w s)) = false ->
  exists s', main_py.start_recording_try w s =
    (Ok tt, set_recording (Some (rec_buffer w (60 * main_py.SAMPLE_RATE) 2)) s').
Proof.
  unfold main_py.start_recording_try, main_py.get_monitor_device, sd_rec.
  run_m. cbn.
  destruct (query_devices w) as [devices|e]; cbn; [|discriminate].
  destruct (main_py.monitor_loop 0 devices w _) as [[i|e] s1]; cbn; [|discriminate].
  destruct (rec_error w 2%nat (Some i)); cbn; [discriminate|].
  intros _. eexists. reflexivity.
Qed.

Lemma test_start_recording_ok (w : env) (s : state) :
  raised (fst (test_py.start_recording w s)) = false ->
  exists s', test_py.start_recording w s =
    (Ok tt, set_recording (Some (rec_buffer w (60 * test_py.SAMPLE_RATE) 1)) s').
Proof.
  unfold test_py.start_recording, sd_rec. run_m. cbn.
  destruct (rec_error w 1%nat None); cbn; [discriminate|].
  intros _. eexists. reflexivity.
Qed.

Lemma shape_sixty_seconds (w : env) (channels : nat) :
  map Z.of_nat (shape (rec_buffer w (60 * 44100) channels))
  = [2646000; Z.of_nat channels].
Proof.
  rewrite shape_rec_buffer. cbn [map]. rewrite Z2Nat.id by lia. reflexivity.
Qed.

(** C6.  A recording that starts gets a buffer of [float32] samples (4 bytes
    each) with int(60 * 44100) = 2,646,000 frames: two channels wide in
    main.py, one in test.py. *)
Theorem start_recording_allocates_sixty_seconds :
  forall (w : env) (s : state),
    60 * main_py.SAMPLE_RATE = 2646000 /\
    60 * test_py.SAMPLE_RATE = 2646000 /\
    (@itemsize float32 _ * 8 = 32)%nat /\
    (raised (fst (main_py.start_recording_try w s)) = false ->
     exists a : ndarray float32,
       recording (snd (main_py.start_recording w s)) = Some a /\
       map Z.of_nat (shape a) = [2646000; 2]) /\
    (raised (fst (test_py.start_recording w s)) = false ->
     exists a : ndarray float32,
       recording (snd (test_py.start_recording w s)) = Some a /\
       map Z.of_nat (shape a) = [2646000; 1]).
Proof.
  intros w s. split; [reflexivity|]. split; [reflexivity|].
  split; [reflexivity|]. split.
  - intros H. destruct (main_start_recording_try_ok w s H) as [s' E].
    exists (rec_buffer w (60 * main_py.SAMPLE_RATE) 2). split.
    + unfold main_py.start_recording.
      now rewrite (try_except_ok _ _ _ _ _ _ E).
    + apply (shape_sixty_seconds w 2).
  - intros H. destruct (test_start_recording_ok w s H) as [s' E].
    exists (rec_buffer w (60 * test_py.SAMPLE_RATE) 1). split.
    + now rewrite E.
    + apply (shape_sixty_seconds w 1).
Qed.

Lemma start_recording_allocates_sixty_seconds_witness :
  (exists a : ndarray float32,
     recording (snd (main_py.start_recording example_env
                       (main_py.build example_files))) = Some a /\
     map Z.of_nat (shape a) = [2646000; 2]) /\
  (exists a : ndarray float32,
     recording (snd (test_py.start_recording example_env
                       (test_py.build example_files))) = Some a /\
     map Z.of_nat (shape a) = [2646000; 1]).
Proof.
  destruct (start_recording_allocates_sixty_seconds example_env
              (main_py.build example_files)) as [_ [_ [_ [Hmain _]]]].
  destruct (start_recording_allocates_sixty_seconds example_env
              (test_py.build example_files)) as [_ [_ [_ [_ Htest]]]].
  split; [apply Hmain | apply Htest]; reflexivity.
Defined.

(** ** The wave file *)

Lemma log_divisor_run (a : ndarray float32) (d : float32) (w : env) (s : state) :
  log_divisor a d w s = (Ok tt, logged a d s).
Proof. unfold log_divisor, logged. now destruct (ravel a). Qed.

Lemma logged_frame (a : ndarray float32) (d : float32) (s : state) :
  files (logged a d s) = files s /\
  recording (logged a d s) = recording s /\
  response_label (logged a d s) = response_label s.
Proof. unfold logged. now destruct (ravel a). Qed.

Lemma logged_buttons (a : ndarray float32) (d : float32) (s : state) :
  start_btn (logged a d s) = start_btn s /\
  stop_btn (logged a d s) = stop_btn s /\
  gen_btn (logged a d s) = gen_btn s /\
  threads (logged a d s) = threads s.
Proof. unfold logged. now destruct (ravel a). Qed.

Ltac logged_simpl :=
  repeat (match goal with
    | |- context [files (logged ?a ?d ?s)] =>
        rewrite (proj1 (logged_frame a d s))
    | |- context [recording (logged ?a ?d ?s)] =>
        rewrite (proj1 (proj2 (logged_frame a d s)))
    | |- context [response_label (logged ?a ?d ?s)] =>
        rewrite (proj2 (proj2 (logged_frame a d s)))
    | |- context [start_btn (logged ?a ?d ?s)] =>
        rewrite (proj1 (logged_buttons a d s))
    | |- context [stop_btn (logged ?a ?d ?s)] =>
        rewrite (proj1 (proj2 (logged_buttons a d s)))
    | |- context [gen_btn (logged ?a ?d ?s)] =>
        rewrite (proj1 (proj2 (proj2 (logged_buttons a d s))))
    | |- context [threads (logged ?a ?d ?s)] =>
        rewrite (proj2 (proj2 (proj2 (logged_buttons a d s))))
    end; cbn).

Lemma other_file (f g : string) (x y : option file) :
  f <> g -> (if String.eqb f g then x else y) = y.
Proof. intros H. apply String.eqb_neq in H. now rewrite H. Qed.

Lemma main_stop_recording_file (w : env) (s s' : state) (r : ndarray float32) :
  recording s = Some r ->
  main_py.stop_recording w s = (Ok tt, s') ->
  exists (mono : list float32) (peak : float32),
    (r = Arr1 mono \/
     exists cols rows, r = Arr2 cols rows /\ mono = map (channel_average cols) rows) /\
    recording s' = Some (Arr1 mono) /\
    np_max (np_abs (Arr1 mono)) = Ok peak /\
    files s' "answer.wav" = Some (WaveFile (mono_wav (pcm_of_mono mono peak))) /\
    forall f, f <> "answer.wav" -> files s' f = files s f.
Proof.
  intros Hr.
  unfold main_py.stop_recording, true_divide, mean_axis1, write.
  run_m. cbn. rewrite Hr.
  destruct r as [v | cols rows]; cbn.
  - destruct (np_max _) as [peak|e] eqn:Hp; [|discriminate].
    unfold pcm_of_mono.
    destruct (f32_ltb (f32_of_Z 0) peak) eqn:Hg.
    + rewrite log_divisor_run. cbn. destruct (write_error w); [destruct (write_cuts_short w); discriminate|].
      intros H. injection H as <-. exists v, peak. cbn.
      destruct (logged_frame (Arr1 v) peak (set_stream_active false s)) as [Hf [Hrec _]].
      rewrite Hrec, Hf, Hg, !map_map. cbn. rewrite Hr.
      split; [now left|]. split; [reflexivity|]. split; [exact Hp|].
      split; [reflexivity|]. intros f Hne. now apply other_file.
    + destruct (write_error w); [destruct (write_cuts_short w); discriminate|].
      intros H. injection H as <-. exists v, peak. cbn. rewrite Hr, Hg.
      split; [now left|]. split; [reflexivity|]. split; [exact Hp|].
      split; [reflexivity|]. intros f Hne. now apply other_file.
  - rewrite log_divisor_run. cbn.
    fold (channel_average cols).
    set (mono := map (channel_average cols) rows).
    destruct (np_max _) as [peak|e] eqn:Hp; [|discriminate].
    set (s1 := set_recording (Some (Arr1 mono))
                 (logged (Arr1 mono) (mean_count cols) (set_stream_active false s))).
    assert (Hf1 : files s1 = files s).
    { unfold s1. cbn.
      now rewrite (proj1 (logged_frame (Arr1 mono) (mean_count cols)
                            (set_stream_active false s))). }
    unfold pcm_of_mono.
    destruct (f32_ltb (f32_of_Z 0) peak) eqn:Hg.
    + rewrite log_divisor_run. cbn. destruct (write_error w); [destruct (write_cuts_short w); discriminate|].
      intros H. injection H as <-. exists mono, peak. cbn.
      destruct (logged_frame (Arr1 mono) peak s1) as [Hf [Hrec _]].
      rewrite Hg, !map_map.
      split; [right; now exists cols, rows|]. split; [now rewrite Hrec|].
      split; [exact Hp|]. split; [reflexivity|].
      intros f Hne. rewrite other_file by assumption. rewrite Hf.
      exact (f_equal (fun g => g f) Hf1).
    + destruct (write_error w); [destruct (write_cuts_short w); discriminate|].
      intros H. injection H as <-. exists mono, peak. cbn. rewrite Hg.
      split; [right; now exists cols, rows|]. split; [reflexivity|].
      split; [exact Hp|]. split; [reflexivity|].
      intros f Hne. rewrite other_file by assumption.
      exact (f_equal (fun g => g f) Hf1).
Qed.

Lemma test_stop_recording_file (w : env) (s s' : state)
    (cols : nat) (rows : list (list float32)) :
  recording s = Some (Arr2 cols rows) ->
  test_py.stop_recording w s = (Ok tt, s') ->
  exists (peak : float32) (pcm : list (list int16)),
    np_max (np_abs (Arr2 cols rows)) = Ok peak /\
    pcm = map (map (fun x => int16_of_f32
                               (f32_mul (f32_div x peak) (f32_of_Z 32767)))) rows /\
    files s' "answer.wav" =
      Some (WaveFile
              (mkWav 44100 cols PCM 16
                 (map (map (fun x => SInt (int16_val x))) pcm))) /\
    forall f, f <> "answer.wav" -> files s' f = files s f.
Proof.
  intros Hr.
  unfold test_py.stop_recording, true_divide, write.
  run_m. cbn. rewrite Hr.
  destruct (np_max _) as [peak|e] eqn:Hp; [|discriminate].
  cbn. rewrite log_divisor_run. cbn.
  destruct (write_error w); [destruct (write_cuts_short w); discriminate|].
  intros H. injection H as <-. eexists peak, _. cbn.
  split; [reflexivity|]. split; [reflexivity|]. split.
  - unfold wav_of_array. cbn. do 3 f_equal.
    rewrite !map_map. apply map_ext. intros row. now rewrite !map_map.
  - intros f Hne. rewrite other_file by assumption.
    now rewrite (proj1 (logged_frame (Arr2 cols rows) peak
                          (set_stream_active false s))).
Qed.

Lemma test_session_one_channel (w : env) (s : state) :
  raised (fst (test_py.start_recording w s)) = false ->
  exists rows,
    recording (snd (test_py.start_recording w s)) = Some (Arr2 1 rows).
Proof.
  intros H. destruct (test_start_recording_ok w s H) as [s' E].
  rewrite E. destruct (rec_buffer_rows w (60 * test_py.SAMPLE_RATE) 1) as [rows [Hb _]].
  exists rows. rewrite <- Hb. reflexivity.
Qed.

Lemma np_max_nonempty (a : ndarray float32) :
  ravel a <> [] -> exists peak, np_max (np_abs a) = Ok peak.
Proof.
  intros Hne. unfold np_max, np_abs. rewrite ravel_np_map.
  destruct (ravel a) as [|x xs]; [contradiction|]. cbn [map]. eexists. reflexivity.
Qed.

Lemma main_stop_recording_returns (w : env) (s : state) (r : ndarray float32) :
  recording s = Some r ->
  mono_of r <> [] ->
  write_error w = None ->
  exists s', main_py.stop_recording w s = (Ok tt, s').
Proof.
  intros Hr Hne Hw.
  destruct (np_max_nonempty (Arr1 (mono_of r)) Hne) as [peak Hp].
  unfold main_py.stop_recording, true_divide, mean_axis1, write.
  run_m. cbn. rewrite Hr, Hw.
  destruct r as [v | cols rows]; cbn in Hp |- *.
  - rewrite Hp.
    destruct (f32_ltb (f32_of_Z 0) peak);
      [rewrite log_divisor_run; cbn|]; eexists; reflexivity.
  - rewrite log_divisor_run. cbn. fold (channel_average cols). rewrite Hp.
    destruct (f32_ltb (f32_of_Z 0) peak);
      [rewrite log_divisor_run; cbn|]; eexists; reflexivity.
Qed.

Lemma test_stop_recording_returns (w : env) (s : state) (r : ndarray float32) :
  recording s = Some r ->
  ravel r <> [] ->
  write_error w = None ->
  exists s', test_py.stop_recording w s = (Ok tt, s').
Proof.
  intros Hr Hne Hw.
  destruct (np_max_nonempty r Hne) as [peak Hp].
  unfold test_py.stop_recording, true_divide, write.
  run_m. cbn. rewrite Hr, Hp. cbn. rewrite log_divisor_run. cbn. rewrite Hw.
  eexists. reflexivity.
Qed.

(** C5.  With a recording that is not empty and a disk that takes the
    file, [stop_recording] completes, and the file it leaves at
    "answer.wav", whatever was there, has one channel of 16-bit PCM at
    44100 Hz.  In main.py a recording of several channels is first averaged
    frame by frame, the averages replace the recording, and the samples of
    the file are the averages, scaled by the peak when it is positive and
    converted to 16 bits; in test.py the samples are those of the buffer,
    scaled by the peak and converted, in the shape of the buffer, which
    [start_recording] makes one channel wide.  No other file changes. *)
Theorem stop_recording_writes_mono_pcm16 :
  forall (w : env) (s : state),
    (forall r : ndarray float32,
       recording s = Some r ->
       (mono_of r <> [] -> write_error w = None ->
        exists s', main_py.stop_recording w s = (Ok tt, s')) /\
       (forall s',
          main_py.stop_recording w s = (Ok tt, s') ->
          exists peak : float32,
            np_max (np_abs (Arr1 (mono_of r))) = Ok peak /\
            files s' main_py.AUDIO_FILE =
              Some (WaveFile
                      (mkWav 44100 1 PCM 16
                         (map (fun x => [SInt (int16_val x)])
                            (pcm_of_mono (mono_of r) peak)))) /\
            recording s' = Some (Arr1 (mono_of r)) /\
            forall g, g <> main_py.AUDIO_FILE -> files s' g = files s g)) /\
    (forall rows : list (list float32),
       recording s = Some (Arr2 1 rows) ->
       (ravel (Arr2 1 rows) <> [] -> write_error w = None ->
        exists s', test_py.stop_recording w s = (Ok tt, s')) /\
       (forall s',
          test_py.stop_recording w s = (Ok tt, s') ->
          exists peak : float32,
            np_max (np_abs (Arr2 1 rows)) = Ok peak /\
            files s' test_py.AUDIO_FILE =
              Some (WaveFile
                      (mkWav 44100 1 PCM 16
                         (map (map (fun x =>
                                      SInt (int16_val
                                              (int16_of_f32
                                                 (f32_mul (f32_div x peak)
                                                    (f32_of_Z 32767))))))
                            rows))) /\
            forall g, g <> test_py.AUDIO_FILE -> files s' g = files s g)) /\
    (raised (fst (test_py.start_recording w s)) = false ->
     exists rows,
       recording (snd (test_py.start_recording w s)) = Some (Arr2 1 rows)).
Proof.
  intros w s. split; [|split; [|apply test_session_one_channel]].
  - intros r Hr. split.
    + intros Hne Hw. exact (main_stop_recording_returns w s r Hr Hne Hw).
    + intros s' Hrun.
      destruct (main_stop_recording_file w s s' r Hr Hrun)
        as [mono [peak [Hshape [Hrec [Hp [Hf Hother]]]]]].
      assert (Hm : mono = mono_of r).
      { destruct Hshape as [-> | [cols [rows [-> ->]]]]; reflexivity. }
      subst mono. exists peak.
      split; [exact Hp|]. split; [exact Hf|]. split; [exact Hrec | exact Hother].
  - intros rows Hr. split.
    + intros Hne Hw.
      exact (test_stop_recording_returns w s (Arr2 1 rows) Hr Hne Hw).
    + intros s' Hrun.
      destruct (test_stop_recording_file w s s' 1 rows Hr Hrun)
        as [peak [pcm [Hp [Hpcm [Hf Hother]]]]].
      exists peak. split; [exact Hp|]. split; [|exact Hother].
      subst pcm. etransitivity; [exact Hf|]. do 3 f_equal.
      rewrite map_map. apply map_ext. intros row. now rewrite map_map.
Qed.

Lemma stop_recording_writes_mono_pcm16_witness :
  files (set_files (fun _ => None) stereo_state) "answer.wav" = None /\
  (exists s',
     main_py.stop_recording example_env (set_files (fun _ => None) stereo_state)
       = (Ok tt, s') /\
     files s' "answer.wav"
       = Some (WaveFile
                 (mkWav 44100 1 PCM 16
                    [[SInt 24575]; [SInt (-32767)]; [SInt 16383]]))) /\
  (exists s',
     test_py.stop_recording example_env
       (set_files (fun _ => None) one_channel_state) = (Ok tt, s') /\
     files s' "answer.wav"
       = Some (WaveFile
                 (mkWav 44100 1 PCM 16
                    [[SInt 32767]; [SInt (-16383)]; [SInt 0]]))).
Proof.
  split; [reflexivity|]. split.
  - destruct (proj1 (stop_recording_writes_mono_pcm16 example_env
                       (set_files (fun _ => None) stereo_state))
                (Arr2 2 [[half; quarter]; [SFopp half; SFopp half];
                         [S754_zero false; half]]) eq_refl)
      as [Hruns Hfile].
    destruct Hruns as [s' Hrun]; [discriminate | reflexivity |].
    exists s'. split; [exact Hrun|].
    destruct (Hfile s' Hrun) as [peak [Hp [Hf _]]].
    vm_compute in Hp. injection Hp as <-.
    etransitivity; [exact Hf|]. vm_compute. reflexivity.
  - destruct (proj1 (proj2 (stop_recording_writes_mono_pcm16 example_env
                              (set_files (fun _ => None) one_channel_state)))
                [[half]; [SFopp quarter]; [S754_zero false]] eq_refl)
      as [Hruns Hfile].
    destruct Hruns as [s' Hrun]; [discriminate | reflexivity |].
    exists s'. split; [exact Hrun|].
    destruct (Hfile s' Hrun) as [peak [Hp [Hf _]]].
    vm_compute in Hp. injection Hp as <-.
    etransitivity; [exact Hf|]. vm_compute. reflexivity.
Defined.

Example stop_recording_stereo_example :
  files (snd (main_py.stop_recording example_env stereo_state)) "answer.wav"
    = Some (WaveFile
              (mkWav 44100 1 PCM 16 [[SInt 24575]; [SInt (-32767)]; [SInt 16383]])).
Proof. vm_compute. reflexivity. Qed.

Example stop_recording_one_channel_example :
  files (snd (test_py.stop_recording example_env one_channel_state)) "answer.wav"
    = Some (WaveFile
              (mkWav 44100 1 PCM 16 [[SInt 32767]; [SInt (-16383)]; [SInt 0]])).
Proof. vm_compute. reflexivity. Qed.

(** A frame of two channels that are both -0.0 averages to +0.0: the sum
    starts from +0.0. *)
Example channel_average_negative_zeros :
  channel_average 2 [S754_zero true; S754_zero true] = S754_zero false.
Proof. vm_compute. reflexivity. Qed.

(** ** Exceptions in the handlers *)

(** [start_recording] of test.py has no [try]: a failure of [sd.rec] leaves
    it. *)
Lemma test_start_recording_propagates (w : env) (s : state) (e : exn) :
  rec_error w 1%nat None = Some e ->
  fst (test_py.start_recording w s) = Raise e.
Proof.
  intros Hr. unfold test_py.start_recording, sd_rec. run_m. cbn.
  now rewrite Hr.
Qed.

Lemma kept_after_cut (fs : string -> option file) (name g : string) :
  fs g <> None ->
  (if String.eqb g name then Some CutShort else fs g) <> None.
Proof. intros Hg. now destruct (String.eqb g name). Qed.

Lemma main_stop_recording_write_fails (w : env) (s : state)
    (r : ndarray float32) (e : exn) :
  recording s = Some r ->
  write_error w = Some e ->
  raised (fst (main_py.stop_recording w s)) = true /\
  response_label (snd (main_py.stop_recording w s)) = response_label s /\
  (forall g, files s g <> None ->
             files (snd (main_py.stop_recording w s)) g <> None) /\
  (forall peak, np_max (np_abs (Arr1 (mono_of r))) = Ok peak ->
                fst (main_py.stop_recording w s) = Raise e).
Proof.
  intros Hr He.
  unfold main_py.stop_recording, true_divide, mean_axis1, write.
  run_m. cbn. rewrite Hr, He.
  destruct r as [v | cols rows]; cbn.
  - destruct (np_max _) as [peak|e'] eqn:Hp.
    + destruct (f32_ltb (f32_of_Z 0) peak); [rewrite log_divisor_run|];
        destruct (write_cuts_short w); cbn; logged_simpl;
        (split; [reflexivity|]); (split; [reflexivity|]);
        (split; [|reflexivity]); intros g Hg;
        first [exact Hg | now apply kept_after_cut].
    + cbn. split; [reflexivity|]. split; [reflexivity|].
      split; [intros g Hg; exact Hg | discriminate].
  - rewrite log_divisor_run. cbn. fold (channel_average cols).
    destruct (np_max _) as [peak|e'] eqn:Hp.
    + destruct (f32_ltb (f32_of_Z 0) peak); [rewrite log_divisor_run|];
        destruct (write_cuts_short w); cbn; logged_simpl;
        (split; [reflexivity|]); (split; [reflexivity|]);
        (split; [|reflexivity]); intros g Hg;
        first [exact Hg | now apply kept_after_cut].
    + cbn. logged_simpl. split; [reflexivity|]. split; [reflexivity|].
      split; [intros g Hg; exact Hg | discriminate].
Qed.

Lemma test_stop_recording_write_fails (w : env) (s : state)
    (r : ndarray float32) (e : exn) :
  recording s = Some r ->
  write_error w = Some e ->
  raised (fst (test_py.stop_recording w s)) = true /\
  response_label (snd (test_py.stop_recording w s)) = response_label s /\
  (forall g, files s g <> None ->
             files (snd (test_py.stop_recording w s)) g <> None).
Proof.
  intros Hr He.
  unfold test_py.stop_recording, true_divide, write.
  run_m. cbn. rewrite Hr, He.
  destruct (np_max _) as [peak|e'] eqn:Hp; cbn.
  - rewrite log_divisor_run. destruct (write_cuts_short w); cbn; logged_simpl;
      (split; [reflexivity|]); (split; [reflexivity|]); intros g Hg;
      first [exact Hg | now apply kept_after_cut].
  - split; [reflexivity|]. split; [reflexivity|]. intros g Hg. exact Hg.
Qed.

Lemma test_stop_recording_without_buffer (w : env) (s : state) :
  recording s = None ->
  test_py.stop_recording w s =
  (Raise (mkExn TypeError "bad operand type for abs(): 'NoneType'"),
   set_stream_active false s).
Proof.
  intros Hr. unfold test_py.stop_recording. run_m. cbn. now rewrite Hr.
Qed.

Lemma silent_stereo_mono (w : env) (frames : Z) :
  (forall i c, captured w i c = S754_zero false) ->
  0 < frames ->
  np_max (np_abs (Arr1 (mono_of (rec_buffer w frames 2)))) = Ok (S754_zero false).
Proof.
  intros Hs Hf. apply np_max_abs_zero.
  - unfold rec_buffer, mono_of, all_zero. cbn [ravel].
    apply Forall_map. apply Forall_map. apply Forall_forall. intros i _.
    cbn [seq map]. rewrite !Hs. reflexivity.
  - unfold rec_buffer, mono_of. cbn [ravel].
    destruct (Z.to_nat frames) as [|n] eqn:E; [lia|]. cbn. discriminate.
Qed.

(** C3, as stated, fails: [stop_recording] has no handler.  With a disk that
    refuses the wave file, the [OSError] raised by [write] leaves
    [stop_recording] of main.py, and the label still reads what
    [start_recording] put there. *)
Lemma stop_recording_lets_the_write_error_escape :
  fst (main_py.stop_recording env_disk_full
         (snd (main_py.start_recording env_disk_full (main_py.build example_files))))
    = Raise (mkExn OSError "[Errno 28] No space left on device") /\
  response_label
    (snd (main_py.stop_recording env_disk_full
            (snd (main_py.start_recording env_disk_full (main_py.build example_files)))))
    = "[b]🎙 Recording Speaker Audio...[/b]".
Proof.
  destruct (main_stop_recording_write_fails env_disk_full
              (snd (main_py.start_recording env_disk_full (main_py.build example_files)))
              (rec_buffer env_disk_full (60 * main_py.SAMPLE_RATE) 2)
              (mkExn OSError "[Errno 28] No space left on device")
              eq_refl eq_refl) as [_ [Hl [_ He]]].
  split.
  - apply (He (S754_zero false)). apply silent_stereo_mono.
    + reflexivity.
    + unfold main_py.SAMPLE_RATE. lia.
  - rewrite Hl. reflexivity.
Qed.

Lemma handler_all_ok (try_block : M unit) (prefix : string) (w : env) (s : state) :
  let handler := fun e : exn =>
    modify (set_response_label (prefix ++ nl ++ exn_msg e)) in
  fst (try_except try_block [(PyException, handler)] w s) = Ok tt /\
  forall e s1, try_block w s = (Raise e, s1) ->
    response_label (snd (try_except try_block [(PyException, handler)] w s))
    = prefix ++ nl ++ exn_msg e.
Proof.
  cbv zeta. unfold try_except. split.
  - destruct (try_block w s) as [[[]|e] s1]; reflexivity.
  - intros e s1 H. rewrite H. reflexivity.
Qed.

(** C3, amended.  [start_recording] of main.py catches every exception of
    its [try] block and shows it in the label; [ai_pipeline] does so in both
    files.  [stop_recording] has no handler: when [write] fails, an
    exception leaves it and the label stays as it was. *)
Theorem handlers_catch_except_stop_recording :
  forall (w : env) (s : state),
    (fst (main_py.start_recording w s) = Ok tt /\
     forall e s1,
       main_py.start_recording_try w s = (Raise e, s1) ->
       response_label (snd (main_py.start_recording w s))
       = "[b]❌ Error:[/b]" ++ nl ++ exn_msg e) /\
    (fst (main_py.ai_pipeline w s) = Ok tt /\
     forall e s1,
       main_py.ai_pipeline_try w s = (Raise e, s1) ->
       response_label (snd (main_py.ai_pipeline w s))
       = "[b]❌ Error[/b]" ++ nl ++ exn_msg e) /\
    (fst (test_py.ai_pipeline w s) = Ok tt /\
     forall e s1,
       test_py.ai_pipeline_try w s = (Raise e, s1) ->
       response_label (snd (test_py.ai_pipeline w s))
       = "[b]❌ Error[/b]" ++ nl ++ exn_msg e) /\
    (forall r e,
       recording s = Some r -> write_error w = Some e ->
       raised (fst (main_py.stop_recording w s)) = true /\
       response_label (snd (main_py.stop_recording w s)) = response_label s) /\
    (forall r e,
       recording s = Some r -> write_error w = Some e ->
       raised (fst (test_py.stop_recording w s)) = true /\
       response_label (snd (test_py.stop_recording w s)) = response_label s).
Proof.
  intros w s.
  split; [|split; [|split; [|split]]].
  - unfold main_py.start_recording, try_except. split.
    + destruct (main_py.start_recording_try w s) as [[[]|e] s1]; reflexivity.
    + intros e s1 H. rewrite H. reflexivity.
  - unfold main_py.ai_pipeline. rewrite try_finally_gen_btn. cbn [fst snd].
    destruct (handler_all_ok main_py.ai_pipeline_try "[b]❌ Error[/b]" w s)
      as [Hok Hlabel].
    split; [exact Hok|]. intros e s1 H. exact (Hlabel e s1 H).
  - unfold test_py.ai_pipeline. rewrite try_finally_gen_btn. cbn [fst snd].
    destruct (handler_all_ok test_py.ai_pipeline_try "[b]❌ Error[/b]" w s)
      as [Hok Hlabel].
    split; [exact Hok|]. intros e s1 H. exact (Hlabel e s1 H).
  - intros r e Hr He.
    destruct (main_stop_recording_write_fails w s r e Hr He) as [H1 [H2 [H3 _]]].
    auto.
  - intros r e Hr He.
    destruct (test_stop_recording_write_fails w s r e Hr He) as [H1 [H2 _]].
    auto.
Qed.

Lemma handlers_catch_except_stop_recording_witness :
  response_label (snd (main_py.start_recording env_bare (main_py.build example_files)))
    = "[b]❌ Error:[/b]" ++ nl
      ++ "No PulseAudio monitor device found. Install pavucontrol." /\
  response_label (snd (main_py.ai_pipeline env_bare (main_py.build example_files)))
    = "[b]❌ Error[/b]" ++ nl ++ "Connection refused" /\
  response_label (snd (test_py.ai_pipeline env_bare (test_py.build example_files)))
    = "[b]❌ Error[/b]" ++ nl ++ "Connection refused" /\
  raised (fst (main_py.stop_recording env_disk_full stereo_state)) = true /\
  raised (fst (test_py.stop_recording env_disk_full one_channel_state)) = true.
Proof.
  destruct (handlers_catch_except_stop_recording env_bare
              (main_py.build example_files)) as [[_ Hstart] [[_ Hmain] _]].
  destruct (handlers_catch_except_stop_recording env_bare
              (test_py.build example_files)) as [_ [_ [[_ Htest] _]]].
  destruct (handlers_catch_except_stop_recording env_disk_full stereo_state)
    as [_ [_ [_ [Hstop _]]]].
  destruct (handlers_catch_except_stop_recording env_disk_full one_channel_state)
    as [_ [_ [_ [_ Hstop']]]].
  split; [|split; [|split; [|split]]].
  - apply (Hstart
             (mkExn PyException
                "No PulseAudio monitor device found. Install pavucontrol.")
             (snd (main_py.start_recording_try env_bare (main_py.build example_files)))).
    vm_compute. reflexivity.
  - apply (Hmain (mkExn ConnectionError "Connection refused")
             (snd (main_py.ai_pipeline_try env_bare (main_py.build example_files)))).
    vm_compute. reflexivity.
  - apply (Htest (mkExn ConnectionError "Connection refused")
             (snd (test_py.ai_pipeline_try env_bare (test_py.build example_files)))).
    vm_compute. reflexivity.
  - apply (Hstop (Arr2 2 [[half; quarter]; [SFopp half; SFopp half];
                          [S754_zero false; half]])
             (mkExn OSError "[Errno 28] No space left on device"));
      reflexivity.
  - apply (Hstop' (Arr2 1 [[half]; [SFopp quarter]; [S754_zero false]])
             (mkExn OSError "[Errno 28] No space left on device"));
      reflexivity.
Defined.

Lemma ai_pipeline_forwards_sentinel_witness :
  response_label
    (snd (main_py.ai_pipeline env_unintelligible (main_py.build example_files)))
  = "[b]🎤 Interviewer Said:[/b]" ++ nl ++ "Could not understand audio." ++ nl ++ nl
    ++ "[b]🤖 Suggested Answer:[/b]" ++ nl ++ "1. Stay calm." /\
  response_label
    (snd (test_py.ai_pipeline env_unintelligible (test_py.build example_files)))
  = "[b] Interviewer Say:[/b]" ++ nl ++ "❌ Could not understand the audio." ++ nl ++ nl
    ++ "[b]🤖 Generated Answer:[/b]" ++ nl ++ "1. Stay calm.".
Proof.
  destruct ai_pipeline_forwards_sentinel as [Hmain [_ [Htest _]]].
  split.
  - destruct (Hmain env_unintelligible (main_py.build example_files) example_wav
                (mkExn UnknownValueError "") eq_refl eq_refl eq_refl eq_refl)
      as [_ [_ Hlabel]].
    apply (Hlabel "1. Stay calm."). reflexivity.
  - destruct (Htest env_unintelligible (test_py.build example_files) example_wav
                (mkExn UnknownValueError "") eq_refl eq_refl eq_refl eq_refl)
      as [_ [_ Hlabel]].
    apply (Hlabel "1. Stay calm."). reflexivity.
Defined.

(** * Further properties of the handlers *)

(** ** What [get_monitor_device] prints *)

Lemma monitor_loop_prints (devices : list device) :
  forall (k : nat) (w : env) (s : state),
    match fst (main_py.monitor_loop k devices w s) with
    | Ok i =>
        exists d, nth_error devices (i - k) = Some d /\ (k <= i)%nat /\
          snd (main_py.monitor_loop k devices w s) =
            set_stdout (("Using Speaker Monitor: " ++ name d) :: stdout s) s
    | Raise _ => snd (main_py.monitor_loop k devices w s) = s
    end.
Proof.
  induction devices as [|d rest IH]; intros k w s.
  - reflexivity.
  - cbn [main_py.monitor_loop]. fold (monitor_test d).
    destruct (monitor_test d).
    + cbn. exists d. rewrite Nat.sub_diag. repeat split. lia.
    + specialize (IH (S k) w s).
      destruct (fst (main_py.monitor_loop (S k) rest w s)) as [i|e]; [|exact IH].
      destruct IH as [d' [Hnth [Hle Hs]]]. exists d'.
      split; [|split; [lia | exact Hs]].
      replace (i - k)%nat with (S (i - S k)) by lia. exact Hnth.
Qed.

(** [get_monitor_device] prints one line, naming the device whose index it
    returns, and changes nothing else; when it raises it has printed
    nothing. *)
Theorem get_monitor_device_prints_the_chosen_device :
  forall (w : env) (s : state) (devices : list device),
    query_devices w = Ok devices ->
    match fst (main_py.get_monitor_device w s) with
    | Ok i =>
        exists d, nth_error devices i = Some d /\
          snd (main_py.get_monitor_device w s) =
            set_stdout (("Using Speaker Monitor: " ++ name d) :: stdout s) s
    | Raise _ => snd (main_py.get_monitor_device w s) = s
    end.
Proof.
  intros w s devices Hq.
  assert (E : main_py.get_monitor_device w s = main_py.monitor_loop 0 devices w s).
  { unfold main_py.get_monitor_device, sd_query_devices, bind, ask, lift.
    now rewrite Hq. }
  rewrite E. pose proof (monitor_loop_prints devices 0 w s) as H.
  destruct (fst (main_py.monitor_loop 0 devices w s)) as [i|e]; [|exact H].
  destruct H as [d [Hnth [_ Hs]]]. exists d. rewrite Nat.sub_0_r in Hnth. auto.
Qed.

Lemma get_monitor_device_prints_the_chosen_device_witness :
  stdout (snd (main_py.get_monitor_device example_env (main_py.build example_files)))
  = ["Using Speaker Monitor: Built-in Audio MONITOR"].
Proof.
  pose proof (get_monitor_device_prints_the_chosen_device example_env
                (main_py.build example_files) example_devices eq_refl) as H.
  assert (E : fst (main_py.get_monitor_device example_env
                     (main_py.build example_files)) = Ok 2%nat) by reflexivity.
  rewrite E in H. destruct H as [d [Hd Hs]].
  vm_compute in Hd. injection Hd as <-.
  rewrite Hs. reflexivity.
Defined.

(** ** The two outcomes of [start_recording] in main.py *)

Lemma monitor_loop_state (devices : list device) (k : nat) (w : env) (s : state) :
  exists out, snd (main_py.monitor_loop k devices w s) = set_stdout out s.
Proof.
  pose proof (monitor_loop_prints devices k w s) as H.
  destruct (fst (main_py.monitor_loop k devices w s)) as [i|e].
  - destruct H as [d [_ [_ Hs]]]. eexists. exact Hs.
  - exists (stdout s). rewrite H. now destruct s.
Qed.

Lemma main_start_recording_outcomes (w : env) (s : state) :
  fst (main_py.start_recording w s) = Ok tt /\
  files (snd (main_py.start_recording w s)) = files s /\
  threads (snd (main_py.start_recording w s)) = threads s /\
  gen_btn (snd (main_py.start_recording w s)) = true /\
  ((raised (fst (main_py.start_recording_try w s)) = false /\
    start_btn (snd (main_py.start_recording w s)) = true /\
    stop_btn (snd (main_py.start_recording w s)) = false /\
    recording (snd (main_py.start_recording w s))
      = Some (rec_buffer w (60 * main_py.SAMPLE_RATE) 2) /\
    stream_active (snd (main_py.start_recording w s)) = true /\
    response_label (snd (main_py.start_recording w s))
      = "[b]🎙 Recording Speaker Audio...[/b]") \/
   (exists e,
      fst (main_py.start_recording_try w s) = Raise e /\
      start_btn (snd (main_py.start_recording w s)) = false /\
      stop_btn (snd (main_py.start_recording w s)) = true /\
      recording (snd (main_py.start_recording w s)) = recording s /\
      stream_active (snd (main_py.start_recording w s)) = stream_active s /\
      response_label (snd (main_py.start_recording w s))
        = "[b]❌ Error:[/b]" ++ nl ++ exn_msg e)).
Proof.
  unfold main_py.start_recording, try_except, main_py.start_recording_try,
    main_py.start_recording_except, main_py.get_monitor_device, sd_rec.
  run_m. cbn.
  destruct (query_devices w) as [devices|e]; cbn.
  - match goal with
    | |- context [main_py.monitor_loop 0 devices w ?s0] =>
        destruct (monitor_loop_state devices 0 w s0) as [out Hs];
        destruct (main_py.monitor_loop 0 devices w s0) as [[i|e] s1]
    end; cbn in Hs; subst s1; cbn.
    + destruct (rec_error w 2%nat (Some i)) as [e|]; cbn.
      * repeat split. right. exists e. repeat split.
      * repeat split. left. repeat split.
    + repeat split. right. exists e. repeat split.
  - repeat split. right. exists e. repeat split.
Qed.

(** When [start_recording] of main.py fails (no monitor device, or [sd.rec]
    refusing), it returns normally with the error in the label, Start
    enabled again, Stop and Generate disabled; the recording buffer, the
    stream and the files are as before. *)
Theorem main_start_recording_failure_state :
  forall (w : env) (s : state) (e : exn),
    fst (main_py.start_recording_try w s) = Raise e ->
    fst (main_py.start_recording w s) = Ok tt /\
    response_label (snd (main_py.start_recording w s))
      = "[b]❌ Error:[/b]" ++ nl ++ exn_msg e /\
    start_btn (snd (main_py.start_recording w s)) = false /\
    stop_btn (snd (main_py.start_recording w s)) = true /\
    gen_btn (snd (main_py.start_recording w s)) = true /\
    recording (snd (main_py.start_recording w s)) = recording s /\
    stream_active (snd (main_py.start_recording w s)) = stream_active s /\
    files (snd (main_py.start_recording w s)) = files s.
Proof.
  intros w s e He.
  destruct (main_start_recording_outcomes w s)
    as [Hok [Hf [_ [Hg [[Hn _] | [e' [He' [H1 [H2 [H3 [H4 H5]]]]]]]]]]].
  - rewrite He in Hn. discriminate.
  - rewrite He in He'. injection He' as <-. repeat split; assumption.
Qed.

Lemma main_start_recording_failure_state_witness :
  response_label (snd (main_py.start_recording env_bare stereo_state))
    = "[b]❌ Error:[/b]" ++ nl
      ++ "No PulseAudio monitor device found. Install pavucontrol." /\
  gen_btn (snd (main_py.start_recording env_bare stereo_state)) = true /\
  recording (snd (main_py.start_recording env_bare stereo_state))
    = recording stereo_state.
Proof.
  destruct (main_start_recording_failure_state env_bare stereo_state
              (mkExn PyException
                 "No PulseAudio monitor device found. Install pavucontrol.")
              eq_refl)
    as [_ [Hl [_ [_ [Hg [Hr _]]]]]].
  repeat split; assumption.
Defined.

(** ** The outcomes of [stop_recording], [generate_response], [ai_pipeline] *)

Ltac stop_raised :=
  left; do 4 (split; [reflexivity|]); (split; [|reflexivity]);
  let g := fresh "g" in let Hg := fresh "Hg" in
  intros g Hg; first [exact Hg | now apply kept_after_cut].

Lemma main_stop_recording_outcomes (w : env) (s : state) (r : ndarray float32) :
  recording s = Some r ->
  stop_outcome main_py.AUDIO_FILE s
    (fst (main_py.stop_recording w s)) (snd (main_py.stop_recording w s)).
Proof.
  intros Hr. unfold stop_outcome.
  unfold main_py.stop_recording, true_divide, mean_axis1, write.
  run_m. cbn. rewrite Hr.
  destruct r as [v | cols rows]; cbn.
  - destruct (np_max _) as [peak|e].
    + destruct (f32_ltb (f32_of_Z 0) peak); [rewrite log_divisor_run|]; cbn;
        destruct (write_error w); try destruct (write_cuts_short w); cbn; logged_simpl; rewrite ?Hr;
        (split; [reflexivity|]); (split; [discriminate|]);
        first [ stop_raised | right; repeat split; discriminate ].
    + cbn. rewrite Hr. split; [reflexivity|]. split; [discriminate|].
      stop_raised.
  - rewrite log_divisor_run. cbn.
    destruct (np_max _) as [peak|e].
    + destruct (f32_ltb (f32_of_Z 0) peak); [rewrite log_divisor_run|]; cbn;
        destruct (write_error w); try destruct (write_cuts_short w); cbn; logged_simpl;
        (split; [reflexivity|]); (split; [discriminate|]);
        first [ stop_raised | right; repeat split; discriminate ].
    + cbn. logged_simpl. split; [reflexivity|]. split; [discriminate|].
      stop_raised.
Qed.

Lemma test_stop_recording_outcomes (w : env) (s : state) (r : ndarray float32) :
  recording s = Some r ->
  stop_outcome test_py.AUDIO_FILE s
    (fst (test_py.stop_recording w s)) (snd (test_py.stop_recording w s)).
Proof.
  intros Hr. unfold stop_outcome.
  unfold test_py.stop_recording, true_divide, write.
  run_m. cbn. rewrite Hr.
  destruct (np_max _) as [peak|e]; cbn.
  - rewrite log_divisor_run. cbn.
    destruct (write_error w); try destruct (write_cuts_short w); cbn; logged_simpl; rewrite ?Hr;
      (split; [reflexivity|]); (split; [discriminate|]);
      first [ stop_raised | right; repeat split; discriminate ].
  - rewrite Hr. split; [reflexivity|]. split; [discriminate|].
    stop_raised.
Qed.

Lemma main_transcribe_run (w : env) (s : state) :
  (exists t, main_py.transcribe w s = (Ok t, s)) \/
  (exists e, main_py.transcribe w s = (Raise e, s)).
Proof.
  destruct (main_transcribe_spec w s) as [Hs _].
  destruct (main_py.transcribe w s) as [[t|e] s1]; cbn in Hs; subst s1;
    [left; now exists t | right; now exists e].
Qed.

Lemma test_transcribe_run (w : env) (s : state) :
  (exists t, test_py.transcribe w s = (Ok t, s)) \/
  (exists e, test_py.transcribe w s = (Raise e, s)).
Proof.
  destruct (test_transcribe_spec w s) as [Hs _].
  destruct (test_py.transcribe w s) as [[t|e] s1]; cbn in Hs; subst s1;
    [left; now exists t | right; now exists e].
Qed.

(** The state [ai_pipeline] ends in: the label and the Generate button set,
    one request recorded when the transcript was obtained, none
    otherwise. *)
Lemma main_ai_pipeline_shape (w : env) (s : state) :
  fst (main_py.ai_pipeline w s) = Ok tt /\
  exists label,
    ((exists e, main_py.transcribe w s = (Raise e, s)) /\
     snd (main_py.ai_pipeline w s) = set_gen_btn false (set_response_label label s)) \/
    (exists t, main_py.transcribe w s = (Ok t, s) /\
       snd (main_py.ai_pipeline w s) =
         set_gen_btn false
           (set_response_label label
              (set_requests_sent
                 ((main_py.OLLAMA_URL, main_py.payload t) :: requests_sent s) s))).
Proof.
  unfold main_py.ai_pipeline. rewrite try_finally_gen_btn. unfold try_except.
  destruct (main_transcribe_run w s) as [[t Ht] | [e He]].
  - rewrite (main_pipeline_try_run w s t Ht).
    destruct (chat_result _ _ _) as [f|e]; cbn; (split; [reflexivity|]);
      eexists; right; exists t; (split; [exact Ht | reflexivity]).
  - assert (E : main_py.ai_pipeline_try w s = (Raise e, s)).
    { unfold main_py.ai_pipeline_try. unfold bind at 1. now rewrite He. }
    rewrite E. cbn. split; [reflexivity|].
    eexists. left. split; [now exists e | reflexivity].
Qed.

Lemma test_ai_pipeline_shape (w : env) (s : state) :
  fst (test_py.ai_pipeline w s) = Ok tt /\
  exists label,
    ((exists e, test_py.transcribe w s = (Raise e, s)) /\
     snd (test_py.ai_pipeline w s) = set_gen_btn false (set_response_label label s)) \/
    (exists t, test_py.transcribe w s = (Ok t, s) /\
       snd (test_py.ai_pipeline w s) =
         set_gen_btn false
           (set_response_label label
              (set_requests_sent
                 ((test_py.url, test_py.payload t) :: requests_sent s)
                 (set_stdout (("Model testing " ++ t) :: stdout s) s)))).
Proof.
  unfold test_py.ai_pipeline. rewrite try_finally_gen_btn. unfold try_except.
  destruct (test_transcribe_run w s) as [[t Ht] | [e He]].
  - rewrite (test_pipeline_try_run w s t Ht).
    destruct (chat_result _ _ _) as [f|e]; cbn; (split; [reflexivity|]);
      eexists; right; exists t; (split; [exact Ht | reflexivity]).
  - assert (E : test_py.ai_pipeline_try w s = (Raise e, s)).
    { unfold test_py.ai_pipeline_try. unfold bind at 1. now rewrite He. }
    rewrite E. cbn. split; [reflexivity|].
    eexists. left. split; [now exists e | reflexivity].
Qed.

(** ** What the pipeline thread leaves alone *)

(** [ai_pipeline] returns normally and changes the label, the Generate
    button, the requests sent and the output only: Start, Stop, the
    recording buffer, the stream and the files are as it found them. *)
Theorem ai_pipeline_leaves_recording_alone :
  forall (w : env) (s : state),
    (fst (main_py.ai_pipeline w s) = Ok tt /\
     untouched_by_pipeline s (snd (main_py.ai_pipeline w s))) /\
    (fst (test_py.ai_pipeline w s) = Ok tt /\
     untouched_by_pipeline s (snd (test_py.ai_pipeline w s))).
Proof.
  intros w s. split.
  - destruct (main_ai_pipeline_shape w s)
      as [Hok [label [[_ Hs] | [t [_ Hs]]]]];
      (split; [exact Hok|]); rewrite Hs; repeat split.
  - destruct (test_ai_pipeline_shape w s)
      as [Hok [label [[_ Hs] | [t [_ Hs]]]]];
      (split; [exact Hok|]); rewrite Hs; repeat split.
Qed.

(** [ai_pipeline] sends at most one request and never repeats one: none when
    [transcribe] raises, exactly one, carrying the transcript, when it
    returns. *)
Theorem ai_pipeline_posts_once_or_never :
  forall (w : env) (s : state),
    ((exists e, main_py.transcribe w s = (Raise e, s)) /\
     requests_sent (snd (main_py.ai_pipeline w s)) = requests_sent s \/
     exists t, main_py.transcribe w s = (Ok t, s) /\
       requests_sent (snd (main_py.ai_pipeline w s)) =
         (main_py.OLLAMA_URL, main_py.payload t) :: requests_sent s) /\
    ((exists e, test_py.transcribe w s = (Raise e, s)) /\
     requests_sent (snd (test_py.ai_pipeline w s)) = requests_sent s \/
     exists t, test_py.transcribe w s = (Ok t, s) /\
       requests_sent (snd (test_py.ai_pipeline w s)) =
         (test_py.url, test_py.payload t) :: requests_sent s).
Proof.
  intros w s. split.
  - destruct (main_ai_pipeline_shape w s)
      as [_ [label [[He Hs] | [t [Ht Hs]]]]]; rewrite Hs.
    + left. split; [exact He | reflexivity].
    + right. exists t. split; [exact Ht | reflexivity].
  - destruct (test_ai_pipeline_shape w s)
      as [_ [label [[He Hs] | [t [Ht Hs]]]]]; rewrite Hs.
    + left. split; [exact He | reflexivity].
    + right. exists t. split; [exact Ht | reflexivity].
Qed.

(** ** Failures inside the pipeline *)

Lemma main_pipeline_error (w : env) (s : state) (t : string) (e : exn) :
  main_py.transcribe w s = (Ok t, s) ->
  chat_result w main_py.OLLAMA_URL (main_py.payload t) = Raise e ->
  response_label (snd (main_py.ai_pipeline w s))
  = "[b]❌ Error[/b]" ++ nl ++ exn_msg e.
Proof.
  intros Ht Hc. unfold main_py.ai_pipeline. rewrite try_finally_gen_btn.
  unfold try_except. rewrite (main_pipeline_try_run w s t Ht), Hc. reflexivity.
Qed.

Lemma test_pipeline_error (w : env) (s : state) (t : string) (e : exn) :
  test_py.transcribe w s = (Ok t, s) ->
  chat_result w test_py.url (test_py.payload t) = Raise e ->
  response_label (snd (test_py.ai_pipeline w s))
  = "[b]❌ Error[/b]" ++ nl ++ exn_msg e.
Proof.
  intros Ht Hc. unfold test_py.ai_pipeline. rewrite try_finally_gen_btn.
  unfold try_except. rewrite (test_pipeline_try_run w s t Ht), Hc. reflexivity.
Qed.

(** Without a wave file on disk, [transcribe] raises the
    [FileNotFoundError] of the missing "answer.wav"; [ai_pipeline] returns
    normally with the message of that very exception in the label, sends
    nothing to the model and enables Generate. *)
Theorem ai_pipeline_without_wave_file :
  forall (w : env) (s : state),
    (files s main_py.AUDIO_FILE = None ->
     main_py.transcribe w s
       = (Raise (mkExn FileNotFoundError
                   "[Errno 2] No such file or directory: 'answer.wav'"), s) /\
     fst (main_py.ai_pipeline w s) = Ok tt /\
     response_label (snd (main_py.ai_pipeline w s))
       = "[b]❌ Error[/b]" ++ nl
         ++ "[Errno 2] No such file or directory: 'answer.wav'" /\
     requests_sent (snd (main_py.ai_pipeline w s)) = requests_sent s /\
     gen_btn (snd (main_py.ai_pipeline w s)) = false) /\
    (files s test_py.AUDIO_FILE = None ->
     test_py.transcribe w s
       = (Raise (mkExn FileNotFoundError
                   "[Errno 2] No such file or directory: 'answer.wav'"), s) /\
     fst (test_py.ai_pipeline w s) = Ok tt /\
     response_label (snd (test_py.ai_pipeline w s))
       = "[b]❌ Error[/b]" ++ nl
         ++ "[Errno 2] No such file or directory: 'answer.wav'" /\
     requests_sent (snd (test_py.ai_pipeline w s)) = requests_sent s /\
     gen_btn (snd (test_py.ai_pipeline w s)) = false).
Proof.
  intros w s. split; intros Hf.
  - assert (T : main_py.transcribe w s
                = (Raise (mkExn FileNotFoundError
                            "[Errno 2] No such file or directory: 'answer.wav'"), s)).
    { rewrite main_transcribe_unfold, (record_audio_file_missing _ w s Hf).
      reflexivity. }
    split; [exact T|].
    unfold main_py.ai_pipeline. rewrite try_finally_gen_btn. unfold try_except.
    assert (E : main_py.ai_pipeline_try w s
                = (Raise (mkExn FileNotFoundError
                            "[Errno 2] No such file or directory: 'answer.wav'"), s)).
    { unfold main_py.ai_pipeline_try. unfold bind at 1. now rewrite T. }
    rewrite E. repeat split.
  - assert (T : test_py.transcribe w s
                = (Raise (mkExn FileNotFoundError
                            "[Errno 2] No such file or directory: 'answer.wav'"), s)).
    { rewrite test_transcribe_unfold, (record_audio_file_missing _ w s Hf).
      reflexivity. }
    split; [exact T|].
    unfold test_py.ai_pipeline. rewrite try_finally_gen_btn. unfold try_except.
    assert (E : test_py.ai_pipeline_try w s
                = (Raise (mkExn FileNotFoundError
                            "[Errno 2] No such file or directory: 'answer.wav'"), s)).
    { unfold test_py.ai_pipeline_try. unfold bind at 1. now rewrite T. }
    rewrite E. repeat split.
Qed.

Lemma ai_pipeline_without_wave_file_witness :
  (fst (main_py.transcribe example_env (main_py.build (fun _ => None)))
     = Raise (mkExn FileNotFoundError
                "[Errno 2] No such file or directory: 'answer.wav'") /\
   response_label
     (snd (main_py.ai_pipeline example_env (main_py.build (fun _ => None))))
     = "[b]❌ Error[/b]" ++ nl
       ++ "[Errno 2] No such file or directory: 'answer.wav'" /\
   requests_sent
     (snd (main_py.ai_pipeline example_env (main_py.build (fun _ => None))))
     = [] /\
   gen_btn
     (snd (main_py.ai_pipeline example_env (main_py.build (fun _ => None))))
     = false) /\
  (fst (test_py.transcribe example_env (test_py.build (fun _ => None)))
     = Raise (mkExn FileNotFoundError
                "[Errno 2] No such file or directory: 'answer.wav'") /\
   response_label
     (snd (test_py.ai_pipeline example_env (test_py.build (fun _ => None))))
     = "[b]❌ Error[/b]" ++ nl
       ++ "[Errno 2] No such file or directory: 'answer.wav'" /\
   requests_sent
     (snd (test_py.ai_pipeline example_env (test_py.build (fun _ => None))))
     = [] /\
   gen_btn
     (snd (test_py.ai_pipeline example_env (test_py.build (fun _ => None))))
     = false).
Proof.
  destruct (ai_pipeline_without_wave_file example_env
              (main_py.build (fun _ => None))) as [Hmain _].
  destruct (ai_pipeline_without_wave_file example_env
              (test_py.build (fun _ => None))) as [_ Htest].
  destruct (Hmain eq_refl) as [Ht [_ [Hl [Hr Hg]]]].
  destruct (Htest eq_refl) as [Ht' [_ [Hl' [Hr' Hg']]]].
  split; (split; [|split; [|split]]).
  - now rewrite Ht.
  - exact Hl.
  - exact Hr.
  - exact Hg.
  - now rewrite Ht'.
  - exact Hl'.
  - exact Hr'.
  - exact Hg'.
Defined.

(** A reply whose JSON object has no "message" key ends the pipeline with
    the [KeyError] in the label, which reads ['message']. *)
Theorem ai_pipeline_reply_without_message :
  forall (w : env) (s : state) (t : string) (r : response)
         (fields : list (string * json)),
    raise_for_status r = None ->
    response_json r = Ok (JObj fields) ->
    assoc "message" fields = None ->
    (main_py.transcribe w s = (Ok t, s) ->
     requests_post w main_py.OLLAMA_URL (main_py.payload t) = Ok r ->
     response_label (snd (main_py.ai_pipeline w s))
       = "[b]❌ Error[/b]" ++ nl ++ "'message'") /\
    (test_py.transcribe w s = (Ok t, s) ->
     requests_post w test_py.url (test_py.payload t) = Ok r ->
     response_label (snd (test_py.ai_pipeline w s))
       = "[b]❌ Error[/b]" ++ nl ++ "'message'").
Proof.
  intros w s t r fields Hst Hj Hm. split; intros Ht Hp.
  - apply (main_pipeline_error w s t (mkExn KeyError "'message'") Ht).
    unfold chat_result. rewrite Hp, Hst, Hj. cbn. now rewrite Hm.
  - apply (test_pipeline_error w s t (mkExn KeyError "'message'") Ht).
    unfold chat_result. rewrite Hp, Hst, Hj. cbn. now rewrite Hm.
Qed.

(** An HTTP error status is what the label shows, whatever the body of the
    reply holds: [raise_for_status] comes before the body is read. *)
Theorem ai_pipeline_http_error_status :
  forall (w : env) (s : state) (t : string) (r : response) (e : exn),
    raise_for_status r = Some e ->
    (main_py.transcribe w s = (Ok t, s) ->
     requests_post w main_py.OLLAMA_URL (main_py.payload t) = Ok r ->
     response_label (snd (main_py.ai_pipeline w s))
       = "[b]❌ Error[/b]" ++ nl ++ exn_msg e) /\
    (test_py.transcribe w s = (Ok t, s) ->
     requests_post w test_py.url (test_py.payload t) = Ok r ->
     response_label (snd (test_py.ai_pipeline w s))
       = "[b]❌ Error[/b]" ++ nl ++ exn_msg e).
Proof.
  intros w s t r e Hst. split; intros Ht Hp.
  - apply (main_pipeline_error w s t e Ht).
    unfold chat_result. now rewrite Hp, Hst.
  - apply (test_pipeline_error w s t e Ht).
    unfold chat_result. now rewrite Hp, Hst.
Qed.

Lemma ai_pipeline_reply_without_message_witness :
  response_label (snd (main_py.ai_pipeline env_error_reply (main_py.build example_files)))
    = "[b]❌ Error[/b]" ++ nl ++ "'message'" /\
  response_label (snd (test_py.ai_pipeline env_error_reply (test_py.build example_files)))
    = "[b]❌ Error[/b]" ++ nl ++ "'message'".
Proof.
  split.
  - apply (proj1 (ai_pipeline_reply_without_message env_error_reply
                    (main_py.build example_files) "tell me about yourself"
                    (mkResponse None (Ok (JObj [("error", JStr "model 'phi3:mini' not found")])))
                    [("error", JStr "model 'phi3:mini' not found")]
                    eq_refl eq_refl eq_refl)); reflexivity.
  - apply (proj2 (ai_pipeline_reply_without_message env_error_reply
                    (test_py.build example_files) "tell me about yourself"
                    (mkResponse None (Ok (JObj [("error", JStr "model 'phi3:mini' not found")])))
                    [("error", JStr "model 'phi3:mini' not found")]
                    eq_refl eq_refl eq_refl)); reflexivity.
Defined.

Lemma ai_pipeline_http_error_status_witness :
  response_label (snd (main_py.ai_pipeline env_http_500 (main_py.build example_files)))
    = "[b]❌ Error[/b]" ++ nl ++ exn_msg server_error /\
  response_label (snd (test_py.ai_pipeline env_http_500 (test_py.build example_files)))
    = "[b]❌ Error[/b]" ++ nl ++ exn_msg server_error.
Proof.
  split.
  - apply (proj1 (ai_pipeline_http_error_status env_http_500
                    (main_py.build example_files) "tell me about yourself"
                    (mkResponse (Some server_error) (Ok example_answer))
                    server_error eq_refl)); reflexivity.
  - apply (proj2 (ai_pipeline_http_error_status env_http_500
                    (test_py.build example_files) "tell me about yourself"
                    (mkResponse (Some server_error) (Ok example_answer))
                    server_error eq_refl)); reflexivity.
Defined.

(** ** What holds whatever is pressed *)

Lemma main_pipeline_untouched (w : env) (s : state) :
  untouched_by_pipeline s (snd (main_py.ai_pipeline w s)) /\
  gen_btn (snd (main_py.ai_pipeline w s)) = false.
Proof.
  destruct (main_ai_pipeline_shape w s) as [_ [label [[_ Hs] | [t [_ Hs]]]]];
    rewrite Hs; repeat split.
Qed.

Lemma test_pipeline_untouched (w : env) (s : state) :
  untouched_by_pipeline s (snd (test_py.ai_pipeline w s)) /\
  gen_btn (snd (test_py.ai_pipeline w s)) = false.
Proof.
  destruct (test_ai_pipeline_shape w s) as [_ [label [[_ Hs] | [t [_ Hs]]]]];
    rewrite Hs; repeat split.
Qed.

Lemma test_start_recording_outcomes (w : env) (s : state) :
  files (snd (test_py.start_recording w s)) = files s /\
  threads (snd (test_py.start_recording w s)) = threads s /\
  start_btn (snd (test_py.start_recording w s)) = true /\
  stop_btn (snd (test_py.start_recording w s)) = false /\
  gen_btn (snd (test_py.start_recording w s)) = true /\
  response_label (snd (test_py.start_recording w s)) = "[b]🎙 Recording...[/b]" /\
  ((fst (test_py.start_recording w s) = Ok tt /\
    recording (snd (test_py.start_recording w s))
      = Some (rec_buffer w (60 * test_py.SAMPLE_RATE) 1)) \/
   (exists e, rec_error w 1%nat None = Some e /\
      fst (test_py.start_recording w s) = Raise e /\
      recording (snd (test_py.start_recording w s)) = recording s)).
Proof.
  unfold test_py.start_recording, sd_rec. run_m. cbn.
  destruct (rec_error w 1%nat None) as [e|]; cbn; repeat split.
  - right. exists e. repeat split.
  - left. repeat split.
Qed.

Lemma run_invariant (h : handlers) (P : app -> Prop) :
  (forall a we, P a -> P (step h a we)) ->
  forall trace a, P a -> P (run h trace a).
Proof.
  intros Hstep trace. unfold run.
  induction trace as [|we trace IH]; intros a Ha; [exact Ha|].
  cbn [fold_left]. apply IH. now apply Hstep.
Qed.

Ltac ignored_event :=
  cbn [app_state finished];
  repeat match goal with
    | H : _ = true |- _ => rewrite H; clear H
    end;
  repeat split; assumption.

Lemma main_step_consistent (a : app) (we : env * event) :
  buttons_consistent main_handlers a /\ stop_has_buffer a ->
  buttons_consistent main_handlers (step main_handlers a we) /\
  stop_has_buffer (step main_handlers a we).
Proof.
  destruct a as [s n]. destruct we as [w e].
  unfold buttons_consistent, stop_has_buffer, thread_pending.
  cbn [app_state finished wave_file main_handlers].
  intros [[Hb Hfile] Hbuf].
  destruct e; unfold step, dispatch;
    cbn [app_state finished on_start on_stop on_generate thread_target main_handlers].
  - destruct (start_btn s) eqn:Hst; [ignored_event|].
    cbn [app_state finished].
    destruct (main_start_recording_outcomes w s)
      as [_ [Hf [Ht [Hg [[_ [H1 [H2 [H3 _]]]] | [e [_ [H1 [H2 _]]]]]]]]];
      rewrite H1, H2, Hg, Hf, Ht; (split; [split|]).
    + reflexivity.
    + intros [Hc | Hp]; [discriminate | apply Hfile; now right].
    + intros _. rewrite H3. discriminate.
    + reflexivity.
    + intros [Hc | Hp]; [discriminate | apply Hfile; now right].
    + discriminate.
  - destruct (stop_btn s) eqn:Hsp; [ignored_event|].
    cbn [app_state finished].
    destruct (recording s) as [r|] eqn:Hr; [|now exfalso; apply Hbuf].
    destruct (main_stop_recording_outcomes w s r Hr)
      as [Ht [Hrec [[_ [H1 [H2 [H3 [H4 _]]]]] | [_ [H1 [H2 [H3 H4]]]]]]];
      (split; [split|]).
    + rewrite H1, H2, Hsp. exact Hb.
    + rewrite H3, Ht. intros Hx. apply H4, Hfile, Hx.
    + intros _. exact Hrec.
    + now rewrite H1, H2.
    + intros _. exact H4.
    + intros _. exact Hrec.
  - destruct (gen_btn s) eqn:Hg; [ignored_event|].
    cbn. split; [split|]; [exact Hb | | exact Hbuf].
    intros _. apply Hfile. now left.
  - destruct (Nat.ltb n (threads s)) eqn:Hp.
    + apply Nat.ltb_lt in Hp. cbn [app_state finished].
      destruct (main_pipeline_untouched w s)
        as [[H1 [H2 [H3 [_ [H5 [H6 _]]]]]] Hg].
      rewrite H1, H2, H3, H5. split; [split|]; [exact Hb | | exact Hbuf].
      intros _. apply Hfile. now right.
    + cbn [app_state finished]. split; [split|]; assumption.
Qed.

(** In main.py, whatever sequence of button presses and thread runs follows
    [build]: exactly one of Start and Stop is enabled; while Generate is
    enabled or a pipeline thread is pending, the wave file is on disk; and
    while Stop is enabled there is a recording buffer. *)
Theorem main_buttons_stay_consistent :
  forall (fs : string -> option file) (trace : list (env * event)),
    buttons_consistent main_handlers
      (run main_handlers trace (mkApp (main_py.build fs) 0)) /\
    stop_has_buffer (run main_handlers trace (mkApp (main_py.build fs) 0)).
Proof.
  intros fs trace.
  apply (run_invariant main_handlers
           (fun a => buttons_consistent main_handlers a /\ stop_has_buffer a)).
  - intros a we. apply main_step_consistent.
  - unfold buttons_consistent, stop_has_buffer, thread_pending. cbn.
    repeat split; [|discriminate].
    intros [H | H]; [discriminate | lia].
Qed.

Lemma test_step_consistent (a : app) (we : env * event) :
  buttons_consistent test_handlers a ->
  buttons_consistent test_handlers (step test_handlers a we).
Proof.
  destruct a as [s n]. destruct we as [w e].
  unfold buttons_consistent, thread_pending.
  cbn [app_state finished wave_file test_handlers].
  intros [Hb Hfile].
  destruct e; unfold step, dispatch;
    cbn [app_state finished on_start on_stop on_generate thread_target test_handlers].
  - destruct (start_btn s) eqn:Hst; [ignored_event|].
    cbn [app_state finished].
    destruct (test_start_recording_outcomes w s)
      as [Hf [Ht [H1 [H2 [Hg _]]]]].
    rewrite H1, H2, Hg, Hf, Ht. split; [reflexivity|].
    intros [Hc | Hp]; [discriminate | apply Hfile; now right].
  - destruct (stop_btn s) eqn:Hsp; [ignored_event|].
    cbn [app_state finished].
    destruct (recording s) as [r|] eqn:Hr.
    + destruct (test_stop_recording_outcomes w s r Hr)
        as [Ht [_ [[_ [H1 [H2 [H3 [H4 _]]]]] | [_ [H1 [H2 [H3 H4]]]]]]]; split.
      * rewrite H1, H2, Hsp. exact Hb.
      * rewrite H3, Ht. intros Hx. apply H4, Hfile, Hx.
      * now rewrite H1, H2.
      * intros _. exact H4.
    + rewrite (test_stop_recording_without_buffer w s Hr). cbn.
      rewrite Hsp. split; assumption.
  - destruct (gen_btn s) eqn:Hg; [ignored_event|].
    cbn. split; [exact Hb|].
    intros _. apply Hfile. now left.
  - destruct (Nat.ltb n (threads s)) eqn:Hp.
    + apply Nat.ltb_lt in Hp. cbn [app_state finished].
      destruct (test_pipeline_untouched w s)
        as [[H1 [H2 [_ [_ [H5 _]]]]] Hg].
      rewrite H1, H2, H5. split; [exact Hb|].
      intros _. apply Hfile. now right.
    + cbn [app_state finished]. split; assumption.
Qed.

(** In test.py, whatever sequence of button presses and thread runs follows
    [build]: exactly one of Start and Stop is enabled, and while Generate is
    enabled or a pipeline thread is pending, the wave file is on disk. *)
Theorem test_buttons_stay_consistent :
  forall (fs : string -> option file) (trace : list (env * event)),
    buttons_consistent test_handlers
      (run test_handlers trace (mkApp (test_py.build fs) 0)).
Proof.
  intros fs trace.
  apply (run_invariant test_handlers (buttons_consistent test_handlers)).
  - intros a we. apply test_step_consistent.
  - unfold buttons_consistent, thread_pending. cbn. split; [reflexivity|].
    intros [H | H]; [discriminate | lia].
Qed.

Lemma test_step_stuck (fs : string -> option file) (label : string)
    (a : app) (we : env * event) :
  stuck fs label a -> stuck fs label (step test_handlers a we).
Proof.
  destruct a as [s n]. destruct we as [w e]. unfold stuck.
  cbn [app_state finished].
  intros [Hst [Hg [Hr [Hf [Hl Ht]]]]].
  destruct e; unfold step, dispatch;
    cbn [app_state finished on_start on_stop on_generate thread_target test_handlers].
  - rewrite Hst. cbn. auto 10.
  - destruct (stop_btn s); [cbn; auto 10|].
    rewrite (test_stop_recording_without_buffer w s Hr). cbn. auto 10.
  - rewrite Hg. cbn. auto 10.
  - destruct (Nat.ltb n (threads s)) eqn:Hp.
    + apply Nat.ltb_lt in Hp. lia.
    + cbn. auto 10.
Qed.

(** In test.py, when [sd.rec] refuses the first recording, the exception
    leaves [start_recording] after Start has been disabled.  From then on,
    whatever is pressed: Start and Generate stay disabled, there is no
    buffer, no file is written and the label keeps reading "Recording". *)
Theorem test_failed_start_is_a_dead_end :
  forall (fs : string -> option file) (w : env) (e : exn)
         (trace : list (env * event)),
    rec_error w 1%nat None = Some e ->
    stuck fs "[b]🎙 Recording...[/b]"
      (run test_handlers trace
         (step test_handlers (mkApp (test_py.build fs) 0) (w, PressStart))).
Proof.
  intros fs w e trace He.
  apply (run_invariant test_handlers (stuck fs "[b]🎙 Recording...[/b]")).
  - intros a we. apply test_step_stuck.
  - unfold stuck, step, dispatch. cbn [app_state finished test_py.build start_btn].
    cbn [on_start test_handlers].
    destruct (test_start_recording_outcomes w (test_py.build fs))
      as [Hf [Ht [H1 [_ [Hg [Hl [[Hok _] | [e' [_ [_ Hr]]]]]]]]]].
    + rewrite (test_start_recording_propagates w (test_py.build fs) e He) in Hok.
      discriminate.
    + rewrite H1, Hg, Hr, Hf, Hl, Ht. cbn. auto 10.
Qed.

Lemma test_failed_start_is_a_dead_end_witness :
  stuck example_files "[b]🎙 Recording...[/b]"
    (run test_handlers
       [(example_env, PressStop); (example_env, PressStart);
        (example_env, PressGenerate); (example_env, ThreadRuns)]
       (step test_handlers (mkApp (test_py.build example_files) 0)
          (with_rec_error
             (fun _ _ => Some (mkExn PortAudioError "Error opening InputStream"))
             example_env,
           PressStart))).
Proof.
  apply (test_failed_start_is_a_dead_end example_files _
           (mkExn PortAudioError "Error opening InputStream")).
  reflexivity.
Defined.

(** ** A pipeline that ends during a recording *)

(** When a pipeline thread ends while a recording is running, its [finally]
    enables Generate all the same: Stop and Generate are then enabled
    together, Start is disabled and the buffer is the running one. *)
Theorem pipeline_end_enables_generate_while_recording :
  forall (w w' : env) (s : state),
    (raised (fst (main_py.start_recording_try w s)) = false ->
     stop_btn (snd (main_py.ai_pipeline w' (snd (main_py.start_recording w s)))) = false /\
     gen_btn (snd (main_py.ai_pipeline w' (snd (main_py.start_recording w s)))) = false /\
     start_btn (snd (main_py.ai_pipeline w' (snd (main_py.start_recording w s)))) = true /\
     recording (snd (main_py.ai_pipeline w' (snd (main_py.start_recording w s))))
       = Some (rec_buffer w (60 * main_py.SAMPLE_RATE) 2)) /\
    (raised (fst (test_py.start_recording w s)) = false ->
     stop_btn (snd (test_py.ai_pipeline w' (snd (test_py.start_recording w s)))) = false /\
     gen_btn (snd (test_py.ai_pipeline w' (snd (test_py.start_recording w s)))) = false /\
     start_btn (snd (test_py.ai_pipeline w' (snd (test_py.start_recording w s)))) = true /\
     recording (snd (test_py.ai_pipeline w' (snd (test_py.start_recording w s))))
       = Some (rec_buffer w (60 * test_py.SAMPLE_RATE) 1)).
Proof.
  intros w w' s. split; intros Hok.
  - destruct (main_start_recording_outcomes w s)
      as [_ [_ [_ [_ [[_ [H1 [H2 [H3 _]]]] | [e [He _]]]]]]].
    + destruct (main_pipeline_untouched w' (snd (main_py.start_recording w s)))
        as [[U1 [U2 [U3 _]]] Hg].
      rewrite U1, U2, U3, Hg, H1, H2, H3. repeat split.
    + rewrite He in Hok. discriminate.
  - destruct (test_start_recording_outcomes w s)
      as [_ [_ [H1 [H2 [_ [_ [[_ H3] | [e [_ [He _]]]]]]]]]].
    + destruct (test_pipeline_untouched w' (snd (test_py.start_recording w s)))
        as [[U1 [U2 [U3 _]]] Hg].
      rewrite U1, U2, U3, Hg, H1, H2, H3. repeat split.
    + rewrite He in Hok. discriminate.
Qed.

Lemma pipeline_end_enables_generate_while_recording_witness :
  (stop_btn (snd (main_py.ai_pipeline example_env
                    (snd (main_py.start_recording example_env
                            (main_py.build example_files))))) = false /\
   gen_btn (snd (main_py.ai_pipeline example_env
                   (snd (main_py.start_recording example_env
                           (main_py.build example_files))))) = false) /\
  (stop_btn (snd (test_py.ai_pipeline example_env
                    (snd (test_py.start_recording example_env
                            (test_py.build example_files))))) = false /\
   gen_btn (snd (test_py.ai_pipeline example_env
                   (snd (test_py.start_recording example_env
                           (test_py.build example_files))))) = false).
Proof.
  destruct (pipeline_end_enables_generate_while_recording example_env example_env
              (main_py.build example_files)) as [Hmain _].
  destruct (pipeline_end_enables_generate_while_recording example_env example_env
              (test_py.build example_files)) as [_ Htest].
  destruct (Hmain eq_refl) as [H1 [H2 _]].
  destruct (Htest eq_refl) as [H3 [H4 _]].
  repeat split; assumption.
Defined.

(** ** [stop_recording] of main.py, run to its end *)

Lemma main_stop_recording_run (w : env) (s : state) (r : ndarray float32)
    (peak : float32) :
  recording s = Some r ->
  np_max (np_abs (Arr1 (mono_of r))) = Ok peak ->
  write_error w = None ->
  exists s',
    main_py.stop_recording w s = (Ok tt, s') /\
    files s' main_py.AUDIO_FILE
      = Some (WaveFile (mono_wav (pcm_of_mono (mono_of r) peak))) /\
    recording s' = Some (Arr1 (mono_of r)) /\
    (forall g, g <> main_py.AUDIO_FILE -> files s' g = files s g).
Proof.
  intros Hr Hp Hw.
  unfold main_py.stop_recording, true_divide, mean_axis1, write.
  run_m. cbn. rewrite Hr, Hw.
  destruct r as [v | cols rows]; cbn in Hp |- *.
  - rewrite Hp. unfold pcm_of_mono.
    destruct (f32_ltb (f32_of_Z 0) peak) eqn:Hg.
    + rewrite log_divisor_run. cbn. eexists. split; [reflexivity|]. cbn.
      logged_simpl. rewrite Hr, !map_map.
      split; [reflexivity|]. split; [reflexivity|].
      intros g Hne. rewrite other_file by assumption. now logged_simpl.
    + eexists. split; [reflexivity|]. cbn. rewrite Hr.
      split; [reflexivity|]. split; [reflexivity|].
      intros g Hne. now rewrite other_file by assumption.
  - rewrite log_divisor_run. cbn. fold (channel_average cols). rewrite Hp.
    unfold pcm_of_mono.
    destruct (f32_ltb (f32_of_Z 0) peak) eqn:Hg.
    + rewrite log_divisor_run. cbn. eexists. split; [reflexivity|]. cbn.
      logged_simpl. rewrite !map_map.
      split; [reflexivity|]. split; [reflexivity|].
      intros g Hne. rewrite other_file by assumption. now logged_simpl.
    + eexists. split; [reflexivity|]. cbn.
      split; [reflexivity|]. split; [reflexivity|].
      intros g Hne. rewrite other_file by assumption. now logged_simpl.
Qed.

Lemma main_stop_recording_ok_inv (w : env) (s s' : state) (r : ndarray float32) :
  recording s = Some r ->
  main_py.stop_recording w s = (Ok tt, s') ->
  write_error w = None /\
  exists peak, np_max (np_abs (Arr1 (mono_of r))) = Ok peak.
Proof.
  intros Hr Hrun. split.
  - destruct (write_error w) as [e|] eqn:He; [|reflexivity].
    destruct (main_stop_recording_write_fails w s r e Hr He) as [Hraised _].
    rewrite Hrun in Hraised. discriminate.
  - destruct (main_stop_recording_file w s s' r Hr Hrun)
      as [mono [peak [Hshape [_ [Hp _]]]]].
    exists peak. destruct Hshape as [-> | [cols [rows [-> ->]]]]; exact Hp.
Qed.

(** Running [stop_recording] of main.py a second time succeeds as the first
    did and rewrites the same file: the buffer kept after the first run is
    the averaged signal before scaling. *)
Theorem main_stop_recording_twice_same_file :
  forall (w : env) (s s' : state) (r : ndarray float32),
    recording s = Some r ->
    main_py.stop_recording w s = (Ok tt, s') ->
    exists s'',
      main_py.stop_recording w s' = (Ok tt, s'') /\
      (forall g, files s'' g = files s' g) /\
      recording s'' = recording s'.
Proof.
  intros w s s' r Hr Hrun.
  destruct (main_stop_recording_ok_inv w s s' r Hr Hrun) as [Hw [peak Hp]].
  destruct (main_stop_recording_run w s r peak Hr Hp Hw)
    as [s1 [Hrun1 [Hf1 [Hr1 _]]]].
  rewrite Hrun in Hrun1. injection Hrun1 as <-.
  destruct (main_stop_recording_run w s' (Arr1 (mono_of r)) peak Hr1 Hp Hw)
    as [s2 [Hrun2 [Hf2 [Hr2 Ho2]]]].
  exists s2. split; [exact Hrun2|]. split; [|now rewrite Hr2, Hr1].
  intros g. destruct (String.eqb g main_py.AUDIO_FILE) eqn:Hg.
  - apply String.eqb_eq in Hg. subst g. now rewrite Hf2, Hf1.
  - apply String.eqb_neq in Hg. now apply Ho2.
Qed.

Lemma main_stop_recording_twice_same_file_witness :
  exists s'',
    main_py.stop_recording example_env
      (snd (main_py.stop_recording example_env stereo_state)) = (Ok tt, s'') /\
    (forall g, files s'' g
               = files (snd (main_py.stop_recording example_env stereo_state)) g) /\
    recording s''
      = recording (snd (main_py.stop_recording example_env stereo_state)).
Proof.
  apply (main_stop_recording_twice_same_file example_env stereo_state
           (snd (main_py.stop_recording example_env stereo_state))
           (Arr2 2 [[half; quarter]; [SFopp half; SFopp half];
                    [S754_zero false; half]])).
  - reflexivity.
  - vm_compute. reflexivity.
Defined.

(** ** From the recording to the recogniser *)

Lemma main_transcribe_reads (w : env) (s : state) (f : wav) (text : string) :
  files s main_py.AUDIO_FILE = Some (WaveFile f) ->
  wav_format f = PCM ->
  recognize_google w f = Ok text ->
  main_py.transcribe w s = (Ok text, s).
Proof.
  intros Hf Hpcm Hr.
  rewrite main_transcribe_unfold, (record_audio_file_pcm _ w s f Hf Hpcm).
  unfold recognize_or_sentinel, try_except. run_m. cbn. now rewrite Hr.
Qed.

Lemma test_transcribe_reads (w : env) (s : state) (f : wav) (text : string) :
  files s test_py.AUDIO_FILE = Some (WaveFile f) ->
  wav_format f = PCM ->
  recognize_google w f = Ok text ->
  test_py.transcribe w s = (Ok text, s).
Proof.
  intros Hf Hpcm Hr.
  rewrite test_transcribe_unfold, (record_audio_file_pcm _ w s f Hf Hpcm).
  unfold recognize_or_sentinel, try_except. run_m. cbn. now rewrite Hr.
Qed.

(** After [stop_recording] has completed, [transcribe] hands the recogniser
    the file made from that recording, whatever "answer.wav" held before:
    in main.py the scaled channel averages, in test.py the scaled buffer. *)
Theorem transcribe_reads_the_latest_recording :
  forall (w w' : env) (s s' : state),
    (forall r : ndarray float32,
       recording s = Some r ->
       main_py.stop_recording w s = (Ok tt, s') ->
       exists peak,
         np_max (np_abs (Arr1 (mono_of r))) = Ok peak /\
         forall text,
           recognize_google w' (mono_wav (pcm_of_mono (mono_of r) peak)) = Ok text ->
           main_py.transcribe w' s' = (Ok text, s')) /\
    (forall (cols : nat) (rows : list (list float32)),
       recording s = Some (Arr2 cols rows) ->
       test_py.stop_recording w s = (Ok tt, s') ->
       exists peak,
         np_max (np_abs (Arr2 cols rows)) = Ok peak /\
         forall text,
           recognize_google w'
             (mkWav 44100 cols PCM 16
                (map (map (fun x =>
                   SInt (int16_val
                           (int16_of_f32
                              (f32_mul (f32_div x peak) (f32_of_Z 32767))))))
                   rows)) = Ok text ->
           test_py.transcribe w' s' = (Ok text, s')).
Proof.
  intros w w' s s'. split.
  - intros r Hr Hrun.
    destruct (main_stop_recording_ok_inv w s s' r Hr Hrun) as [Hw [peak Hp]].
    destruct (main_stop_recording_run w s r peak Hr Hp Hw)
      as [s1 [Hrun1 [Hf1 _]]].
    rewrite Hrun in Hrun1. injection Hrun1 as <-.
    exists peak. split; [exact Hp|]. intros text Hrec.
    exact (main_transcribe_reads w' s' _ text Hf1 eq_refl Hrec).
  - intros cols rows Hr Hrun.
    destruct (test_stop_recording_file w s s' cols rows Hr Hrun)
      as [peak [pcm [Hp [Hpcm [Hf _]]]]].
    exists peak. split; [exact Hp|]. intros text Hrec.
    apply (test_transcribe_reads w' s' _ text Hf eq_refl).
    rewrite Hpcm, map_map.
    erewrite map_ext; [exact Hrec|].
    intros row. now rewrite map_map.
Qed.

Lemma transcribe_reads_the_latest_recording_witness :
  main_py.transcribe example_env
    (snd (main_py.stop_recording example_env stereo_state))
  = (Ok "tell me about yourself",
     snd (main_py.stop_recording example_env stereo_state)) /\
  test_py.transcribe example_env
    (snd (test_py.stop_recording example_env one_channel_state))
  = (Ok "tell me about yourself",
     snd (test_py.stop_recording example_env one_channel_state)).
Proof.
  split.
  - destruct (proj1 (transcribe_reads_the_latest_recording example_env example_env
                       stereo_state
                       (snd (main_py.stop_recording example_env stereo_state)))
                (Arr2 2 [[half; quarter]; [SFopp half; SFopp half];
                         [S754_zero false; half]]))
      as [peak [_ Hread]].
    + reflexivity.
    + vm_compute. reflexivity.
    + apply Hread. reflexivity.
  - destruct (proj2 (transcribe_reads_the_latest_recording example_env example_env
                       one_channel_state
                       (snd (test_py.stop_recording example_env one_channel_state)))
                1%nat [[half]; [SFopp quarter]; [S754_zero false]])
      as [peak [_ Hread]].
    + reflexivity.
    + vm_compute. reflexivity.
    + apply Hread. reflexivity.
Defined.

(** ** Silence and NaN in main.py *)

Lemma silent_mono_all_zero (w : env) (frames : Z) :
  (forall i c, captured w i c = S754_zero false) ->
  all_zero (mono_of (rec_buffer w frames 2)) /\
  List.length (mono_of (rec_buffer w frames 2)) = Z.to_nat frames.
Proof.
  intros Hs. unfold rec_buffer, mono_of. split.
  - unfold all_zero. apply Forall_map. apply Forall_map.
    apply Forall_forall. intros i _. cbn [seq map]. rewrite !Hs. reflexivity.
  - now rewrite !length_map, length_seq.
Qed.

(** A session of main.py that records silence ends with a one-channel file
    of 2,646,000 samples, all 0: the peak is 0.0, the guard skips the
    scaling. *)
Theorem main_silent_session_writes_silence :
  forall (w : env) (s : state),
    (forall i c, captured w i c = S754_zero false) ->
    raised (fst (main_py.start_recording_try w s)) = false ->
    write_error w = None ->
    exists s2 f,
      main_py.stop_recording w (snd (main_py.start_recording w s)) = (Ok tt, s2) /\
      files s2 main_py.AUDIO_FILE = Some (WaveFile f) /\
      wav_channels f = 1%nat /\
      Z.of_nat (List.length (wav_frames f)) = 2646000 /\
      Forall (fun frame => frame = [SInt 0]) (wav_frames f).
Proof.
  intros w s Hs Hok Hw.
  destruct (main_start_recording_outcomes w s)
    as [_ [_ [_ [_ [[_ [_ [_ [Hr _]]]] | [e [He _]]]]]]];
    [|rewrite He in Hok; discriminate].
  assert (Hp : np_max (np_abs (Arr1 (mono_of (rec_buffer w (60 * main_py.SAMPLE_RATE) 2))))
               = Ok (S754_zero false)).
  { apply silent_stereo_mono; [exact Hs | unfold main_py.SAMPLE_RATE; lia]. }
  destruct (main_stop_recording_run w _ _ _ Hr Hp Hw) as [s2 [Hrun [Hf _]]].
  destruct (silent_mono_all_zero w (60 * main_py.SAMPLE_RATE) Hs) as [Hz Hlen].
  exists s2, (mono_wav (pcm_of_mono
                          (mono_of (rec_buffer w (60 * main_py.SAMPLE_RATE) 2))
                          (S754_zero false))).
  split; [exact Hrun|]. split; [exact Hf|]. split; [reflexivity|].
  assert (Hpcm : forall l, pcm_of_mono l (S754_zero false) = map int16_of_f32 l)
    by reflexivity.
  rewrite Hpcm. unfold mono_wav. cbn [wav_frames]. split.
  - rewrite !length_map, Hlen. unfold main_py.SAMPLE_RATE.
    rewrite Z2Nat.id by lia. reflexivity.
  - apply Forall_map. apply Forall_map.
    eapply Forall_impl; [|exact Hz]. intros x ->. reflexivity.
Qed.

Lemma main_silent_session_writes_silence_witness :
  exists s2 f,
    main_py.stop_recording example_env
      (snd (main_py.start_recording example_env (main_py.build example_files)))
      = (Ok tt, s2) /\
    files s2 main_py.AUDIO_FILE = Some (WaveFile f) /\
    wav_channels f = 1%nat /\
    Z.of_nat (List.length (wav_frames f)) = 2646000 /\
    Forall (fun frame => frame = [SInt 0]) (wav_frames f).
Proof.
  apply (main_silent_session_writes_silence example_env
           (main_py.build example_files)); reflexivity.
Defined.

Lemma fold_maximum_nan (l : list float32) :
  forall acc, acc = S754_nan \/ In S754_nan l ->
              fold_left npy_maximum l acc = S754_nan.
Proof.
  induction l as [|x l IH]; intros acc [Ha | Hin].
  - exact Ha.
  - destruct Hin.
  - cbn [fold_left]. apply IH. left. rewrite Ha.
    unfold npy_maximum. cbn [f32_is_nan]. now rewrite orb_true_r.
  - cbn [fold_left]. destruct Hin as [-> | Hin].
    + apply IH. left. destruct acc; reflexivity.
    + apply IH. now right.
Qed.

Lemma np_max_abs_nan (l : list float32) :
  In S754_nan l -> np_max (np_abs (Arr1 l)) = Ok S754_nan.
Proof.
  intros Hin. unfold np_max, np_abs. cbn [np_map ravel].
  destruct l as [|x l]; [destruct Hin|]. cbn [map]. f_equal.
  apply fold_maximum_nan. destruct Hin as [-> | Hin]; [now left | right].
  change S754_nan with (f32_abs S754_nan). now apply in_map.
Qed.

(** In main.py a NaN among the (averaged) samples makes the peak a NaN;
    [max_val > 0] is then false and every sample is converted to 16 bits
    without scaling. *)
Theorem main_stop_recording_nan_skips_scaling :
  forall (w : env) (s : state) (r : ndarray float32),
    recording s = Some r ->
    In S754_nan (mono_of r) ->
    write_error w = None ->
    exists s',
      main_py.stop_recording w s = (Ok tt, s') /\
      files s' main_py.AUDIO_FILE
        = Some (WaveFile (mono_wav (map int16_of_f32 (mono_of r)))).
Proof.
  intros w s r Hr Hin Hw.
  destruct (main_stop_recording_run w s r S754_nan Hr (np_max_abs_nan _ Hin) Hw)
    as [s' [Hrun [Hf _]]].
  exists s'. split; [exact Hrun | exact Hf].
Qed.

Lemma main_stop_recording_nan_skips_scaling_witness :
  exists s',
    main_py.stop_recording example_env
      (set_recording (Some (Arr1 [half; S754_nan; quarter]))
         (main_py.build example_files)) = (Ok tt, s') /\
    files s' main_py.AUDIO_FILE
      = Some (WaveFile (mono_wav (map int16_of_f32 [half; S754_nan; quarter]))).
Proof.
  apply (main_stop_recording_nan_skips_scaling example_env
           (set_recording (Some (Arr1 [half; S754_nan; quarter]))
              (main_py.build example_files))
           (Arr1 [half; S754_nan; quarter])).
  - reflexivity.
  - right. left. reflexivity.
  - reflexivity.
Defined.

(** ** [stop_recording] of test.py without a buffer *)

(** In test.py, [stop_recording] called while [self.recording] is [None]
    raises a [TypeError] out of the handler: the stream is stopped, no file
    is written, label and buttons are as before. *)
Theorem test_stop_recording_without_buffer_raises :
  forall (w : env) (s : state),
    recording s = None ->
    exists e,
      fst (test_py.stop_recording w s) = Raise e /\
      exn_cls e = TypeError /\
      snd (test_py.stop_recording w s) = set_stream_active false s /\
      files (snd (test_py.stop_recording w s)) = files s /\
      response_label (snd (test_py.stop_recording w s)) = response_label s /\
      stop_btn (snd (test_py.stop_recording w s)) = stop_btn s.
Proof.
  intros w s Hr. rewrite (test_stop_recording_without_buffer w s Hr).
  eexists. repeat split.
Qed.

Lemma test_stop_recording_without_buffer_raises_witness :
  exists e,
    fst (test_py.stop_recording example_env (test_py.build example_files)) = Raise e /\
    exn_cls e = TypeError /\
    snd (test_py.stop_recording example_env (test_py.build example_files))
      = set_stream_active false (test_py.build example_files) /\
    files (snd (test_py.stop_recording example_env (test_py.build example_files)))
      = files (test_py.build example_files) /\
    response_label (snd (test_py.stop_recording example_env (test_py.build example_files)))
      = response_label (test_py.build example_files) /\
    stop_btn (snd (test_py.stop_recording example_env (test_py.build example_files)))
      = stop_btn (test_py.build example_files).
Proof.
  apply (test_stop_recording_without_buffer_raises example_env
           (test_py.build example_files)).
  reflexivity.
Defined.

(** ** A whole session of main.py *)







